(** * PharmaGuide: the authentication context provider [src/hooks/useAuth.tsx]

    A shallow embedding of the [AuthProvider] component: the JavaScript
    values that reach [transformDatabaseUser] through the [any]-typed
    relations of a database row, the transformation itself, and the
    asynchronous operations of the provider as computations over the
    React state of the component and the key-value store, with the
    Supabase client as an oracle of responses. *)

From Stdlib Require Import ZArith Lia SpecFloat.
From stdpp Require Import base option strings list gmap.

Local Open Scope Z_scope.
Local Open Scope string_scope.
Local Set Warnings "-register-all".

(** ** JavaScript values *)

(** Numbers are the integers, which is what the integer columns of the
    backend hold, and NaN; fractions and infinities are outside the model.
    An integer stands for the double of the engine that has its value. *)
Inductive JsNumber :=
| NInt (z : Z)
| NaN.

Inductive JsValue :=
| JUndefined
| JNull
| JBool (b : bool)
| JNum (n : JsNumber)
| JStr (s : string)
| JArr (items : list JsValue)
| JObj (fields : gmap string JsValue).

(** What is thrown and caught: an error object, of which the code reads
    [message] and [code]. *)
Module JsError.
Record t := mk { message : option string; code : option string }.
End JsError.

Inductive Completion (A : Type) :=
| Normal (a : A)
| Abrupt (e : JsError.t).
Arguments Normal {A} a.
Arguments Abrupt {A} e.

#[export] Instance Completion_ret : MRet Completion := fun A a => Normal a.
#[export] Instance Completion_bind : MBind Completion := fun A B f c =>
  match c with
  | Normal a => f a
  | Abrupt e => Abrupt e
  end.

(** ToBoolean. *)
Definition truthy (v : JsValue) : bool :=
  match v with
  | JUndefined | JNull => false
  | JBool b => b
  | JNum (NInt z) => negb (z =? 0)%Z
  | JNum NaN => false
  | JStr s => negb (String.eqb s "")
  | JArr _ | JObj _ => true
  end.

(** [a || b] *)
Definition or_else (a b : JsValue) : JsValue := if truthy a then a else b.
Infix "|||" := or_else (at level 50, left associativity).

Definition TypeError : JsError.t :=
  JsError.mk (Some "Cannot read properties of undefined") None.

(** [o.k]: reading a property of [undefined] or [null] throws; none of the
    keys the provider reads is a built-in property of a primitive or of an
    array, so reading it from one of those gives [undefined]. *)
Definition get (o : JsValue) (k : string) : Completion JsValue :=
  match o with
  | JUndefined | JNull => Abrupt TypeError
  | JObj fields => Normal (default JUndefined (fields !! k))
  | _ => Normal JUndefined
  end.
Notation "o .[ k ]" := (get o k) (at level 1, left associativity, format "o .[ k ]").

(** ** The types of the application and of the backend *)

Module Db.
(** [DatabaseUserWithRelations]; an optional relation that is absent is
    [JUndefined]. *)
Record DatabaseUserWithRelations := mk {
  id : string;
  auth_id : string;
  email : option string;
  is_anonymous : bool;
  display_name : option string;
  created_at : string;
  updated_at : string;
  profile : JsValue;
  preferences : JsValue;
  points : JsValue;
  streaks : JsValue;
  roles : JsValue
}.
End Db.

Record UserProfile := {
  firstName : JsValue;
  lastName : JsValue;
  age : JsValue;
  gender : JsValue;
  healthGoals : JsValue;
  conditions : JsValue;
  medications : JsValue;
  allergies : JsValue;
  genetics : JsValue
}.

Record UserPreferences := {
  aiResponseStyle : JsValue;
  budgetRange : JsValue;
  primaryFocus : JsValue;
  notifications : JsValue
}.

(** [levelTitle] is [None] where the lookup in the title list gives
    [undefined]. *)
Record UserPoints := {
  total : JsValue;
  level : JsValue;
  levelTitle : option string;
  nextLevelAt : JsNumber
}.

Record UserStreaks := {
  current : JsValue;
  longest : JsValue;
  lastActivity : JsValue
}.

(** The [User] of the application; [points] and [streaks] are [None] where
    the code writes [undefined], [email] is [None] for [null]. *)
Module User.
Record t := mk {
  id : string;
  email : option string;
  is_anonymous : bool;
  profile : UserProfile;
  preferences : UserPreferences;
  points : option UserPoints;
  streaks : option UserStreaks;
  createdAt : string;
  updatedAt : string
}.
End User.

(** The part of [@supabase/supabase-js] the provider uses. *)
Module Supabase.

(** [SupabaseUser]: the authenticated principal; [email] is optional. *)
Record User := mkUser {
  id : string;
  email : option string
}.

(** A session and its principal, which the code reads as [session?.user]. *)
Record Session := mkSession {
  access_token : string;
  user : option User
}.

(** A promise that has settled. *)
Inductive Promise (A : Type) :=
| Resolves (a : A)
| Rejects (reason : JsError.t).
Arguments Resolves {A} a.
Arguments Rejects {A} reason.

(** [{ data: { user, session }, error }] *)
Record AuthResponse := mkAuthResponse {
  data_user : option User;
  data_session : option Session;
  error : option JsError.t
}.

(** The arguments of the [create_user_with_profile] procedure. *)
Record RpcParams := mkRpcParams {
  p_auth_id : string;
  p_email : option string;
  p_is_anonymous : bool
}.

(** [{ data: userId, error: rpcError }] *)
Record RpcResponse := mkRpcResponse {
  rpc_data : option string;
  rpc_error : option JsError.t
}.

(** [{ data, error }] of [.from(t).select(s).eq(c, v).single()] *)
Record QueryResponse := mkQueryResponse {
  query_data : option Db.DatabaseUserWithRelations;
  query_error : option JsError.t
}.

(** What the backend answers to each call of the client. *)
Record Client := mkClient {
  auth_getSession : Promise (option Session);
  auth_signInAnonymously : Promise AuthResponse;
  auth_signInWithPassword : string -> string -> Promise AuthResponse;
  auth_signUp : string -> string -> Promise AuthResponse;
  auth_signOut : Promise (option JsError.t);
  rpc : string -> RpcParams -> Promise RpcResponse;
  from_select_eq_single : string -> string -> string -> string -> Promise QueryResponse
}.

End Supabase.

(** [AuthError], as the catch blocks of the provider build it. *)
Module AuthError.
Record t := mk {
  message : string;
  code : string;
  originalError : JsError.t
}.
End AuthError.

(** The four [useState] cells of the provider. *)
Record AuthState := mkAuthState {
  user : option User.t;
  session : option Supabase.Session;
  loading : bool;
  error : option AuthError.t
}.

(** [useState(null)], [useState(null)], [useState(true)], [useState(null)] *)
Definition initialState : AuthState :=
  {| user := None; session := None; loading := true; error := None |}.

(** The state of the component and the contents of the key-value store. *)
Record World := mkWorld {
  state : AuthState;
  storage : gmap string string
}.

(** What an operation does, in the order it does it. *)
Inductive Event :=
| SetUser (u : option User.t)
| SetSession (s : option Supabase.Session)
| SetLoading (b : bool)
| SetError (e : option AuthError.t)
| GetSession
| SignInAnonymously
| SignInWithPassword (email password : string)
| SignUp (email password : string)
| SignOut
| Rpc (fn : string) (params : Supabase.RpcParams)
| Query (table select column value : string)
| SetItem (key value : string)
| RemoveItem (key : string)
| ConsoleLog (msg : string)
| ConsoleError (msg : string).

(** ** Asynchronous code

    An [async] function run to its end from a world: how it completes, the
    world it leaves and the events it caused. *)
Record Run (A : Type) := mkRun {
  outcome : Completion A;
  final : World;
  events : list Event
}.
Arguments mkRun {A} outcome final events.
Arguments outcome {A} r.
Arguments final {A} r.
Arguments events {A} r.

Definition M (A : Type) : Type := World -> Run A.

#[export] Instance M_ret : MRet M := fun A a w =>
  {| outcome := Normal a; final := w; events := [] |}.

#[export] Instance M_bind : MBind M := fun A B f m w =>
  match m w with
  | mkRun (Normal a) w1 ev =>
      match f a w1 with
      | mkRun o w2 ev' => mkRun o w2 (ev ++ ev')
      end
  | mkRun (Abrupt e) w1 ev => mkRun (Abrupt e) w1 ev
  end.

Definition throw {A} (e : JsError.t) : M A := fun w =>
  {| outcome := Abrupt e; final := w; events := [] |}.

Definition emit (e : Event) : M unit := fun w =>
  {| outcome := Normal tt; final := w; events := [e] |}.

(** A pure computation that may throw. *)
Definition lift {A} (c : Completion A) : M A := fun w =>
  {| outcome := c; final := w; events := [] |}.

(** [await p] *)
Definition await {A} (p : Supabase.Promise A) : M A :=
  match p with
  | Supabase.Resolves a => mret a
  | Supabase.Rejects reason => throw reason
  end.

(** [try { body } catch (error) { handler }] *)
Definition try_catch {A} (body : M A) (handler : JsError.t -> M A) : M A := fun w =>
  match body w with
  | mkRun (Normal a) w1 ev => mkRun (Normal a) w1 ev
  | mkRun (Abrupt e) w1 ev =>
      match handler e w1 with
      | mkRun o w2 ev' => mkRun o w2 (ev ++ ev')
      end
  end.

(** [try { body } finally { finalizer }]: the finalizer runs however the
    body completes; when it completes normally the completion of the body
    stands. *)
Definition try_finally {A} (body : M A) (finalizer : M unit) : M A := fun w =>
  match body w with
  | mkRun o w1 ev =>
      match finalizer w1 with
      | mkRun (Normal _) w2 ev' => mkRun o w2 (ev ++ ev')
      | mkRun (Abrupt e) w2 ev' => mkRun (Abrupt e) w2 (ev ++ ev')
      end
  end.

Definition modify (f : AuthState -> AuthState) : M unit := fun w =>
  {| outcome := Normal tt;
     final := {| state := f (state w); storage := storage w |};
     events := [] |}.

Definition setUser (u : option User.t) : M unit :=
  emit (SetUser u);;
  modify (fun s => {| user := u; session := session s;
                      loading := loading s; error := error s |}).

Definition setSession (x : option Supabase.Session) : M unit :=
  emit (SetSession x);;
  modify (fun s => {| user := user s; session := x;
                      loading := loading s; error := error s |}).

Definition setLoading (b : bool) : M unit :=
  emit (SetLoading b);;
  modify (fun s => {| user := user s; session := session s;
                      loading := b; error := error s |}).

Definition setError (e : option AuthError.t) : M unit :=
  emit (SetError e);;
  modify (fun s => {| user := user s; session := session s;
                      loading := loading s; error := e |}).

Module console.
Definition log (msg : string) : M unit := emit (ConsoleLog msg).
Definition error (msg : string) : M unit := emit (ConsoleError msg).
End console.

(** Modelled from the spec: [../utils/safeStorage] is not among the sources;
    the spec has it get, set and remove string values keyed by name. *)
Module safeStorage.
Definition setItem (key value : string) : M unit := fun w =>
  {| outcome := Normal tt;
     final := {| state := state w; storage := <[key := value]> (storage w) |};
     events := [SetItem key value] |}.
Definition removeItem (key : string) : M unit := fun w =>
  {| outcome := Normal tt;
     final := {| state := state w; storage := delete key (storage w) |};
     events := [RemoveItem key] |}.
End safeStorage.

(** [s || d] for an optional string. *)
Definition str_or (s : option string) (d : string) : string :=
  match s with
  | Some x => if String.eqb x "" then d else x
  | None => d
  end.

(** [s || null] for an optional string. *)
Definition str_or_null (s : option string) : option string :=
  match s with
  | Some x => if String.eqb x "" then None else Some x
  | None => None
  end.

(** [!s] for an optional string. *)
Definition str_not (s : option string) : bool :=
  match s with
  | Some x => String.eqb x ""
  | None => true
  end.

Module TABLES.
Definition USERS := "users".
Definition USER_PROFILES := "user_profiles".
Definition USER_PREFERENCES := "user_preferences".
Definition USER_POINTS := "user_points".
Definition USER_STREAKS := "user_streaks".
Definition USER_ROLES := "user_roles".
End TABLES.

Module RPC_FUNCTIONS.
Definition CREATE_USER_WITH_PROFILE := "create_user_with_profile".
End RPC_FUNCTIONS.

(** ** Double precision

    The numbers of the engine are binary64 doubles: the integers up to
    [2 ^ 53] in absolute value are doubles, and on them the sums, the
    products and the quotients that are integers are exact. *)
Module Double.

Definition prec : Z := 53.
Definition emax : Z := 1024.

(** [2 ^ 53] *)
Definition max_exact : Z := 9007199254740992.

(** The double nearest to an integer. *)
Definition of_Z (z : Z) : spec_float := binary_normalize prec emax z 0 false.

(** The integer a double is, when it is one. *)
Definition to_Z (x : spec_float) : option Z :=
  match x with
  | S754_zero _ => Some 0
  | S754_finite s m e =>
      if (0 <=? e)%Z then Some (cond_Zopp s (Z.shiftl (Zpos m) e))
      else if (Z.shiftl (Z.shiftr (Zpos m) (- e)) (- e) =? Zpos m)%Z
           then Some (cond_Zopp s (Z.shiftr (Zpos m) (- e)))
           else None
  | S754_infinity _ | S754_nan => None
  end.

(** [x / y], [x + y] and [x * y], rounded to the nearest double. *)
Definition div : spec_float -> spec_float -> spec_float := SFdiv prec emax.
Definition add : spec_float -> spec_float -> spec_float := SFadd prec emax.
Definition mul : spec_float -> spec_float -> spec_float := SFmul prec emax.

(** [Math.floor(x)] *)
Definition floor (x : spec_float) : spec_float :=
  match x with
  | S754_finite s m e =>
      if (0 <=? e)%Z then x
      else binary_normalize prec emax (Z.shiftr (cond_Zopp s (Zpos m)) (- e)) 0 s
  | _ => x
  end.

End Double.

Section AuthProvider.

(** ToNumber on strings, arrays and objects is left to the engine. *)
Variable coerce : JsValue -> JsNumber.

(** The client of [../services/supabase/client]. *)
Variable supabase : Supabase.Client.

Definition ToNumber (v : JsValue) : JsNumber :=
  match v with
  | JUndefined => NaN
  | JNull => NInt 0
  | JBool b => NInt (if b then 1 else 0)
  | JNum n => n
  | JStr _ | JArr _ | JObj _ => coerce v
  end.

Definition titles : list string :=
  [ "Health Novice";
    "Wellness Explorer";
    "Supplement Scholar";
    "Nutrition Navigator";
    "Health Guardian";
    "Wellness Warrior";
    "Supplement Sage";
    "Health Master";
    "Wellness Wizard";
    "PharmaGuide Legend" ].

(** [arr[i]] for an array of strings: an element at an index that is a
    non-negative integer below the length, [undefined] elsewhere. *)
Definition index (arr : list string) (i : JsNumber) : option string :=
  match i with
  | NInt z => if (z <? 0)%Z then None else arr !! Z.to_nat z
  | NaN => None
  end.

(** [Math.min(a, b)] *)
Definition Math_min (a b : JsNumber) : JsNumber :=
  match a, b with
  | NInt x, NInt y => NInt (Z.min x y)
  | _, _ => NaN
  end.

Definition minus (a b : JsNumber) : JsNumber :=
  match a, b with
  | NInt x, NInt y => NInt (x - y)
  | _, _ => NaN
  end.

(** [titles[Math.min(level - 1, titles.length - 1)]] *)
Definition getLevelTitle (level : JsValue) : option string :=
  index titles
    (Math_min (minus (ToNumber level) (NInt 1))
              (NInt (Z.of_nat (length titles) - 1))).

(** [(Math.floor(x / 100) + 1) * 100] as the engine computes it, in
    doubles, each operation rounded. *)
Definition nextLevel_double (x : spec_float) : spec_float :=
  Double.mul
    (Double.add (Double.floor (Double.div x (Double.of_Z 100))) (Double.of_Z 1))
    (Double.of_Z 100).

(** [(Math.floor(x / 100) + 1) * 100]: up to [2 ^ 53] in absolute value
    the doubles of the engine compute this without rounding, and so it is
    computed in the integers; beyond, it is computed in doubles. A
    threshold that is infinite is outside [JsNumber] and reads [NaN]. *)
Definition nextLevel (x : JsValue) : JsNumber :=
  match ToNumber x with
  | NInt z =>
      if (Z.abs z <=? Double.max_exact)%Z then NInt ((z / 100 + 1) * 100)
      else
        match Double.to_Z (nextLevel_double (Double.of_Z z)) with
        | Some n => NInt n
        | None => NaN
        end
  | NaN => NaN
  end.

Definition defaultNotifications : JsValue :=
  JObj (<["push_enabled" := JBool true]>
        (<["email_enabled" := JBool true]>
         (<["reminder_frequency" := JStr "daily"]> ∅))).

Definition transformDatabaseUser (dbUser : option Db.DatabaseUserWithRelations)
  : Completion (option User.t) :=
  match dbUser with
  | None => mret None
  | Some dbUser =>
    profile ←
      (if truthy (Db.profile dbUser) then
         first_name ← (Db.profile dbUser).["first_name"];
         last_name ← (Db.profile dbUser).["last_name"];
         age ← (Db.profile dbUser).["age"];
         gender ← (Db.profile dbUser).["gender"];
         health_goals ← (Db.profile dbUser).["health_goals"];
         conditions ← (Db.profile dbUser).["conditions"];
         medications ← (Db.profile dbUser).["medications"];
         allergies ← (Db.profile dbUser).["allergies"];
         genetics ← (Db.profile dbUser).["genetics"];
         mret {| firstName := first_name;
                 lastName := last_name;
                 age := age;
                 gender := gender;
                 healthGoals := health_goals ||| JArr [];
                 conditions := conditions ||| JArr [];
                 medications := medications ||| JArr [];
                 allergies := allergies ||| JArr [];
                 genetics := genetics ||| JNull |}
       else
         mret {| firstName := JNull;
                 lastName := JNull;
                 age := JNull;
                 gender := JNull;
                 healthGoals := JArr [];
                 conditions := JArr [];
                 medications := JArr [];
                 allergies := JArr [];
                 genetics := JNull |});
    preferences ←
      (if truthy (Db.preferences dbUser) then
         ai_response_style ← (Db.preferences dbUser).["ai_response_style"];
         budget_range ← (Db.preferences dbUser).["budget_range"];
         primary_focus ← (Db.preferences dbUser).["primary_focus"];
         notifications ← (Db.preferences dbUser).["notifications"];
         mret {| aiResponseStyle := ai_response_style ||| JStr "concise";
                 budgetRange := budget_range ||| JStr "mid";
                 primaryFocus := primary_focus ||| JStr "safety";
                 notifications := notifications ||| defaultNotifications |}
       else
         mret {| aiResponseStyle := JStr "concise";
                 budgetRange := JStr "mid";
                 primaryFocus := JStr "safety";
                 notifications := defaultNotifications |});
    points ←
      (if truthy (Db.points dbUser) then
         total_points ← (Db.points dbUser).["total_points"];
         level ← (Db.points dbUser).["level"];
         level' ← (Db.points dbUser).["level"];
         total_points' ← (Db.points dbUser).["total_points"];
         mret (Some {| total := total_points ||| JNum (NInt 0);
                       level := level ||| JNum (NInt 1);
                       levelTitle := getLevelTitle (level' ||| JNum (NInt 1));
                       nextLevelAt := nextLevel (total_points' ||| JNum (NInt 0)) |})
       else mret None);
    streaks ←
      (if truthy (Db.streaks dbUser) then
         current_streak ← (Db.streaks dbUser).["current_streak"];
         longest_streak ← (Db.streaks dbUser).["longest_streak"];
         last_activity_date ← (Db.streaks dbUser).["last_activity_date"];
         mret (Some {| current := current_streak ||| JNum (NInt 0);
                       longest := longest_streak ||| JNum (NInt 0);
                       lastActivity := last_activity_date |})
       else mret None);
    mret (Some {| User.id := Db.id dbUser;
                  User.email := Db.email dbUser;
                  User.is_anonymous := Db.is_anonymous dbUser;
                  User.profile := profile;
                  User.preferences := preferences;
                  User.points := points;
                  User.streaks := streaks;
                  User.createdAt := Db.created_at dbUser;
                  User.updatedAt := Db.updated_at dbUser |})
  end.

(** *** Calls of the client *)

Definition supabase_auth_getSession : M (option Supabase.Session) :=
  emit GetSession;; await (Supabase.auth_getSession supabase).

Definition supabase_auth_signInAnonymously : M Supabase.AuthResponse :=
  emit SignInAnonymously;; await (Supabase.auth_signInAnonymously supabase).

Definition supabase_auth_signInWithPassword (email password : string)
  : M Supabase.AuthResponse :=
  emit (SignInWithPassword email password);;
  await (Supabase.auth_signInWithPassword supabase email password).

Definition supabase_auth_signUp (email password : string)
  : M Supabase.AuthResponse :=
  emit (SignUp email password);;
  await (Supabase.auth_signUp supabase email password).

Definition supabase_auth_signOut : M (option JsError.t) :=
  emit SignOut;; await (Supabase.auth_signOut supabase).

Definition supabase_rpc (fn : string) (params : Supabase.RpcParams)
  : M Supabase.RpcResponse :=
  emit (Rpc fn params);; await (Supabase.rpc supabase fn params).

Definition supabase_from_select_eq_single (table select column value : string)
  : M Supabase.QueryResponse :=
  emit (Query table select column value);;
  await (Supabase.from_select_eq_single supabase table select column value).

(** The template literal of the query, with its line breaks and its
    indentation. *)
Definition userSelect : string :=
  let nl := String (Ascii.ascii_of_nat 10) "" in
  let row := nl ++ "        " in
  row ++ "*,"
    ++ row ++ "profile:" ++ TABLES.USER_PROFILES ++ "(*),"
    ++ row ++ "preferences:" ++ TABLES.USER_PREFERENCES ++ "(*),"
    ++ row ++ "points:" ++ TABLES.USER_POINTS ++ "(*),"
    ++ row ++ "streaks:" ++ TABLES.USER_STREAKS ++ "(*)"
    ++ nl ++ "      ".

Definition fetchUserWithRelations (authId : string)
  : M (option Db.DatabaseUserWithRelations) :=
  r ← supabase_from_select_eq_single TABLES.USERS userSelect "auth_id" authId;
  match Supabase.query_error r with
  | Some error =>
      console.error "Error fetching user:";;
      mret None
  | None => mret (Supabase.query_data r)
  end.

Definition createOrUpdateUser (authUser : Supabase.User) : M (option User.t) :=
  try_catch
    (r ← supabase_rpc RPC_FUNCTIONS.CREATE_USER_WITH_PROFILE
           {| Supabase.p_auth_id := Supabase.id authUser;
              Supabase.p_email := str_or_null (Supabase.email authUser);
              Supabase.p_is_anonymous := str_not (Supabase.email authUser) |};
     match Supabase.rpc_error r with
     | Some rpcError => console.error "RPC error:";; throw rpcError
     | None => mret tt
     end;;
     dbUser ← fetchUserWithRelations (Supabase.id authUser);
     match dbUser with
     | None =>
         throw (JsError.mk (Some "Failed to fetch user after creation") None)
     | Some _ => mret tt
     end;;
     lift (transformDatabaseUser dbUser))
    (fun error =>
       console.error "Error creating/updating user:";;
       mret None).

(** [session?.user] *)
Definition session_user (s : option Supabase.Session) : option Supabase.User :=
  s ≫= Supabase.user.

(** The start-up of the provider, in its [useEffect]. *)
Definition initializeAuth : M unit :=
  try_finally
    (try_catch
       (currentSession ← supabase_auth_getSession;
        match session_user currentSession with
        | Some principal =>
            setSession currentSession;;
            profile ← createOrUpdateUser principal;
            setUser profile;;
            match profile with
            | Some p => safeStorage.setItem "current_user_id" (User.id p)
            | None => mret tt
            end
        | None => mret tt
        end)
       (fun error => console.error "Error initializing auth:"))
    (setLoading false).

(** The handler given to [supabase.auth.onAuthStateChange]. *)
Definition onAuthStateChange (event : string) (session : option Supabase.Session)
  : M unit :=
  console.log ("Auth state changed: " ++ event);;
  match session_user session with
  | Some principal =>
      setSession session;;
      profile ← createOrUpdateUser principal;
      setUser profile;;
      match profile with
      | Some p => safeStorage.setItem "current_user_id" (User.id p)
      | None => mret tt
      end
  | None =>
      setSession None;;
      setUser None;;
      safeStorage.removeItem "current_user_id"
  end.

(** The catch block of the sign-in, sign-up and sign-out operations. *)
Definition report (message code : string) (error : JsError.t) : M unit :=
  setError (Some {| AuthError.message := str_or (JsError.message error) message;
                    AuthError.code := str_or (JsError.code error) code;
                    AuthError.originalError := error |});;
  throw error.

Definition signInAnonymously : M unit :=
  setLoading true;;
  setError None;;
  try_finally
    (try_catch
       (r ← supabase_auth_signInAnonymously;
        match Supabase.error r with
        | Some error => throw error
        | None => mret tt
        end;;
        match Supabase.data_user r with
        | Some principal =>
            profile ← createOrUpdateUser principal;
            setUser profile;;
            match profile with
            | Some p => safeStorage.setItem "current_user_id" (User.id p)
            | None => mret tt
            end
        | None => mret tt
        end)
       (report "Failed to sign in anonymously" "auth/anonymous-failed"))
    (setLoading false).

Definition signInWithEmail (email password : string) : M unit :=
  setLoading true;;
  setError None;;
  try_finally
    (try_catch
       (r ← supabase_auth_signInWithPassword email password;
        match Supabase.error r with
        | Some error => throw error
        | None => mret tt
        end;;
        match Supabase.data_user r with
        | Some principal =>
            profile ← createOrUpdateUser principal;
            setUser profile;;
            match profile with
            | Some p => safeStorage.setItem "current_user_id" (User.id p)
            | None => mret tt
            end
        | None => mret tt
        end)
       (report "Failed to sign in" "auth/sign-in-failed"))
    (setLoading false).

Definition signUpWithEmail (email password : string) : M unit :=
  setLoading true;;
  setError None;;
  try_finally
    (try_catch
       (r ← supabase_auth_signUp email password;
        match Supabase.error r with
        | Some error => throw error
        | None => mret tt
        end;;
        match Supabase.data_user r with
        | Some principal =>
            profile ← createOrUpdateUser principal;
            setUser profile;;
            match profile with
            | Some p => safeStorage.setItem "current_user_id" (User.id p)
            | None => mret tt
            end
        | None => mret tt
        end)
       (report "Failed to sign up" "auth/sign-up-failed"))
    (setLoading false).

Definition signOut : M unit :=
  setLoading true;;
  setError None;;
  try_finally
    (try_catch
       (error ← supabase_auth_signOut;
        match error with
        | Some error => throw error
        | None => mret tt
        end;;
        setUser None;;
        setSession None;;
        safeStorage.removeItem "current_user_id")
       (report "Failed to sign out" "auth/sign-out-failed"))
    (setLoading false).

(** [session] is the state cell as the render that made this closure read
    it: the operation is run from the render of the world it is run in, and
    not from an earlier one. *)
Definition refreshUser : M unit := fun w =>
  match session_user (session (state w)) with
  | None => (mret tt : M unit) w
  | Some principal =>
      try_catch
        (dbUser ← fetchUserWithRelations (Supabase.id principal);
         match dbUser with
         | Some _ =>
             transformedUser ← lift (transformDatabaseUser dbUser);
             setUser transformedUser
         | None => mret tt
         end)
        (fun error => console.error "Error refreshing user:")
        w
  end.

Definition clearError : M unit := setError None.

End AuthProvider.

(** ** Reading the rows *)

(** The value of [o.k] for an [o] that is neither [undefined] nor [null]. *)
Definition field (o : JsValue) (k : string) : JsValue :=
  match o with
  | JObj fields => default JUndefined (fields !! k)
  | _ => JUndefined
  end.

Definition absent_or_null (v : JsValue) : Prop := v = JUndefined \/ v = JNull.

(** The profile and the preferences of a row that has neither relation. *)
Definition emptyProfile : UserProfile :=
  {| firstName := JNull; lastName := JNull; age := JNull; gender := JNull;
     healthGoals := JArr []; conditions := JArr []; medications := JArr [];
     allergies := JArr []; genetics := JNull |}.

Definition defaultPreferences : UserPreferences :=
  {| aiResponseStyle := JStr "concise"; budgetRange := JStr "mid";
     primaryFocus := JStr "safety"; notifications := defaultNotifications |}.

(** The columns of the row that go to the user as they are. *)
Definition identity_copied (R : Db.DatabaseUserWithRelations) (u : User.t) : Prop :=
  User.id u = Db.id R /\ User.email u = Db.email R /\
  User.is_anonymous u = Db.is_anonymous R /\
  User.createdAt u = Db.created_at R /\ User.updatedAt u = Db.updated_at R.

Definition profile_defaults (R : Db.DatabaseUserWithRelations) (u : User.t) : Prop :=
  let p := Db.profile R in
  let q := User.profile u in
  (absent_or_null p -> q = emptyProfile) /\
  (truthy p = true ->
   firstName q = field p "first_name" /\ lastName q = field p "last_name" /\
   age q = field p "age" /\ gender q = field p "gender" /\
   (absent_or_null (field p "health_goals") -> healthGoals q = JArr []) /\
   (absent_or_null (field p "conditions") -> conditions q = JArr []) /\
   (absent_or_null (field p "medications") -> medications q = JArr []) /\
   (absent_or_null (field p "allergies") -> allergies q = JArr []) /\
   (absent_or_null (field p "genetics") -> genetics q = JNull)).

Definition preferences_defaults (R : Db.DatabaseUserWithRelations) (u : User.t) : Prop :=
  let p := Db.preferences R in
  let q := User.preferences u in
  (absent_or_null p -> q = defaultPreferences) /\
  (truthy p = true ->
   (absent_or_null (field p "ai_response_style") -> aiResponseStyle q = JStr "concise") /\
   (absent_or_null (field p "budget_range") -> budgetRange q = JStr "mid") /\
   (absent_or_null (field p "primary_focus") -> primaryFocus q = JStr "safety") /\
   (absent_or_null (field p "notifications") -> notifications q = defaultNotifications)).

Definition points_defaults (R : Db.DatabaseUserWithRelations) (u : User.t) : Prop :=
  let p := Db.points R in
  (absent_or_null p -> User.points u = None) /\
  (truthy p = true ->
   exists q, User.points u = Some q /\
     (absent_or_null (field p "total_points") ->
      total q = JNum (NInt 0) /\ nextLevelAt q = NInt 100) /\
     (absent_or_null (field p "level") ->
      level q = JNum (NInt 1) /\ levelTitle q = Some "Health Novice")).

Definition streaks_defaults (R : Db.DatabaseUserWithRelations) (u : User.t) : Prop :=
  let p := Db.streaks R in
  (absent_or_null p -> User.streaks u = None) /\
  (truthy p = true ->
   exists q, User.streaks u = Some q /\
     lastActivity q = field p "last_activity_date" /\
     (absent_or_null (field p "current_streak") -> current q = JNum (NInt 0)) /\
     (absent_or_null (field p "longest_streak") -> longest q = JNum (NInt 0))).

(** ** Rows, principals and backends to run the provider on *)

Definition coerce_nan : JsValue -> JsNumber := fun _ => NaN.

(** A row whose profile has no column and that has no points row. *)
Definition bare_row : Db.DatabaseUserWithRelations :=
  {| Db.id := "u1"; Db.auth_id := "a1"; Db.email := None;
     Db.is_anonymous := true; Db.display_name := None;
     Db.created_at := "2024-01-01"; Db.updated_at := "2024-01-02";
     Db.profile := JObj ∅; Db.preferences := JUndefined; Db.points := JNull;
     Db.streaks := JUndefined; Db.roles := JUndefined |}.

Definition level12 : gmap string JsValue :=
  <["level" := JNum (NInt 12)]> (<["total_points" := JNum (NInt 1234)]> ∅).

Definition scored_row : Db.DatabaseUserWithRelations :=
  {| Db.id := "u2"; Db.auth_id := "a2"; Db.email := Some "new@x.com";
     Db.is_anonymous := false; Db.display_name := None;
     Db.created_at := "2024-01-01"; Db.updated_at := "2024-01-02";
     Db.profile := JNull; Db.preferences := JNull; Db.points := JObj level12;
     Db.streaks := JNull; Db.roles := JUndefined |}.

(** An anonymous principal, one with an e-mail address and one whose
    address is the empty string. *)
Definition anonymous_principal : Supabase.User :=
  {| Supabase.id := "a1"; Supabase.email := None |}.

Definition email_principal : Supabase.User :=
  {| Supabase.id := "a2"; Supabase.email := Some "new@x.com" |}.

Definition blank_principal : Supabase.User :=
  {| Supabase.id := "a3"; Supabase.email := Some "" |}.

Definition anonymous_session : Supabase.Session :=
  {| Supabase.access_token := "token"; Supabase.user := Some anonymous_principal |}.

Definition network_error : JsError.t :=
  JsError.mk (Some "Network request failed") None.

Definition signed_in (principal : Supabase.User) : Supabase.AuthResponse :=
  {| Supabase.data_user := Some principal;
     Supabase.data_session := None;
     Supabase.error := None |}.

(** A backend that signs everybody in, creates the user and returns [row]. *)
Definition backend_up (row : Db.DatabaseUserWithRelations) : Supabase.Client :=
  {| Supabase.auth_getSession := Supabase.Resolves (Some anonymous_session);
     Supabase.auth_signInAnonymously := Supabase.Resolves (signed_in anonymous_principal);
     Supabase.auth_signInWithPassword := fun _ _ => Supabase.Resolves (signed_in email_principal);
     Supabase.auth_signUp := fun _ _ => Supabase.Resolves (signed_in email_principal);
     Supabase.auth_signOut := Supabase.Resolves None;
     Supabase.rpc := fun _ _ =>
       Supabase.Resolves {| Supabase.rpc_data := Some (Db.id row);
                            Supabase.rpc_error := None |};
     Supabase.from_select_eq_single := fun _ _ _ _ =>
       Supabase.Resolves {| Supabase.query_data := Some row;
                            Supabase.query_error := None |} |}.

(** A backend that signs everybody in and then fails the procedure call. *)
Definition backend_rpc_down : Supabase.Client :=
  {| Supabase.auth_getSession := Supabase.Resolves (Some anonymous_session);
     Supabase.auth_signInAnonymously := Supabase.Resolves (signed_in anonymous_principal);
     Supabase.auth_signInWithPassword := fun _ _ => Supabase.Resolves (signed_in email_principal);
     Supabase.auth_signUp := fun _ _ => Supabase.Resolves (signed_in email_principal);
     Supabase.auth_signOut := Supabase.Resolves None;
     Supabase.rpc := fun _ _ =>
       Supabase.Resolves {| Supabase.rpc_data := None;
                            Supabase.rpc_error := Some network_error |};
     Supabase.from_select_eq_single := fun _ _ _ _ =>
       Supabase.Resolves {| Supabase.query_data := None;
                            Supabase.query_error := Some network_error |} |}.

(** A backend out of reach: every call rejects. *)
Definition backend_down : Supabase.Client :=
  {| Supabase.auth_getSession := Supabase.Rejects network_error;
     Supabase.auth_signInAnonymously := Supabase.Rejects network_error;
     Supabase.auth_signInWithPassword := fun _ _ => Supabase.Rejects network_error;
     Supabase.auth_signUp := fun _ _ => Supabase.Rejects network_error;
     Supabase.auth_signOut := Supabase.Rejects network_error;
     Supabase.rpc := fun _ _ => Supabase.Rejects network_error;
     Supabase.from_select_eq_single := fun _ _ _ _ => Supabase.Rejects network_error |}.

(** The provider before anybody has signed in, with loading over. *)
Definition signed_out_world : World :=
  {| state := {| user := None; session := None; loading := false; error := None |};
     storage := ∅ |}.

Definition stale_user : User.t :=
  {| User.id := "u1"; User.email := None; User.is_anonymous := true;
     User.profile := emptyProfile; User.preferences := defaultPreferences;
     User.points := None; User.streaks := None;
     User.createdAt := "2024-01-01"; User.updatedAt := "2024-01-01" |}.

Definition stale_error : AuthError.t :=
  {| AuthError.message := "Failed to sign in";
     AuthError.code := "auth/sign-in-failed";
     AuthError.originalError := network_error |}.

(** The provider with a user, its session and its persisted id, and with an
    error left by an earlier operation. *)
Definition signed_in_world : World :=
  {| state := {| user := Some stale_user; session := Some anonymous_session;
                 loading := false; error := Some stale_error |};
     storage := <["current_user_id" := "u1"]> ∅ |}.

(** ** What a run writes *)

Definition writes_session (e : Event) : bool :=
  match e with
  | SetSession _ => true
  | _ => false
  end.

Definition writes_loading_or_error (e : Event) : bool :=
  match e with
  | SetLoading _ | SetError _ => true
  | _ => false
  end.

(** Writes to the user, the session or the persisted id. *)
Definition writes_identity (e : Event) : bool :=
  match e with
  | SetUser _ | SetSession _ | SetItem _ _ | RemoveItem _ => true
  | _ => false
  end.

Definition never (p : Event -> bool) (r : Run unit) : Prop :=
  forallb (fun e => negb (p e)) (events r) = true.

(** A run that begins by setting [loading] and clearing [error], and ends
    by clearing [loading]. *)
Definition entry_exit_protocol (r : Run unit) : Prop :=
  take 2 (events r) = [SetLoading true; SetError None] /\
  last (events r) = Some (SetLoading false) /\
  loading (state (final r)) = false.

(** The arguments [createOrUpdateUser] gives to the procedure. *)
Definition rpc_params (principal : Supabase.User) : Supabase.RpcParams :=
  {| Supabase.p_auth_id := Supabase.id principal;
     Supabase.p_email := str_or_null (Supabase.email principal);
     Supabase.p_is_anonymous := str_not (Supabase.email principal) |}.

(** The row the backend gives for a principal: the procedure call resolves
    without an error and so does the query, with a row. *)
Definition fetched (supabase : Supabase.Client) (authId : string)
  : option Db.DatabaseUserWithRelations :=
  match Supabase.from_select_eq_single supabase TABLES.USERS userSelect "auth_id" authId with
  | Supabase.Resolves q =>
      match Supabase.query_error q with
      | None => Supabase.query_data q
      | Some _ => None
      end
  | Supabase.Rejects _ => None
  end.

Definition materialized (supabase : Supabase.Client) (principal : Supabase.User)
  : option Db.DatabaseUserWithRelations :=
  match Supabase.rpc supabase RPC_FUNCTIONS.CREATE_USER_WITH_PROFILE (rpc_params principal) with
  | Supabase.Resolves r =>
      match Supabase.rpc_error r with
      | None => fetched supabase (Supabase.id principal)
      | Some _ => None
      end
  | Supabase.Rejects _ => None
  end.

(** The error the sign-out leaves when the backend answers [e]. *)
Definition sign_out_failed (e : JsError.t) : AuthError.t :=
  {| AuthError.message := str_or (JsError.message e) "Failed to sign out";
     AuthError.code := str_or (JsError.code e) "auth/sign-out-failed";
     AuthError.originalError := e |}.

(** ** More to say about a run *)

Definition writes_error (e : Event) : bool :=
  match e with
  | SetError _ => true
  | _ => false
  end.

(** The calls of the client, by kind. *)
Definition is_auth_call (e : Event) : bool :=
  match e with
  | GetSession | SignInAnonymously | SignInWithPassword _ _ | SignUp _ _ | SignOut => true
  | _ => false
  end.

Definition is_rpc (e : Event) : bool :=
  match e with
  | Rpc _ _ => true
  | _ => false
  end.

Definition is_query (e : Event) : bool :=
  match e with
  | Query _ _ _ _ => true
  | _ => false
  end.

Definition count (p : Event -> bool) (l : list Event) : nat :=
  length (List.filter p l).

(** No event of the list is a [p]. *)
Definition none_of (p : Event -> bool) (l : list Event) : Prop :=
  forallb (fun e => negb (p e)) l = true.

(** What a catch block makes of the error [e] it caught, with the message
    and the code it falls back on. *)
Definition reports (message code : string) (e : JsError.t) (err : AuthError.t) : Prop :=
  AuthError.originalError err = e /\
  (forall m, JsError.message e = Some m -> m <> "" -> AuthError.message err = m) /\
  (JsError.message e = None \/ JsError.message e = Some "" ->
   AuthError.message err = message) /\
  (forall c, JsError.code e = Some c -> c <> "" -> AuthError.code err = c) /\
  (JsError.code e = None \/ JsError.code e = Some "" -> AuthError.code err = code).

(** An authentication call that fails with [e]: the promise rejects, or
    resolves with an error. *)
Definition auth_fails (answer : Supabase.Promise Supabase.AuthResponse)
    (e : JsError.t) : Prop :=
  answer = Supabase.Rejects e \/
  exists a, answer = Supabase.Resolves a /\ Supabase.error a = Some e.

(** The persisted id is that of the user in memory, when there is one. *)
Definition id_persisted (w : World) : Prop :=
  forall u, user (state w) = Some u ->
            storage w !! "current_user_id" = Some (User.id u).

(** [out] is [v || d]. *)
Definition defaulted (v d out : JsValue) : Prop :=
  (truthy v = true -> out = v) /\ (truthy v = false -> out = d).

(** ** The root component [App.tsx] *)

(** What the effect of [AppContent] gives to [gamificationService.setUserId]
    for the user it reads from the context. *)
Definition AppContent_setUserId (user : option User.t) : option string :=
  match user with
  | Some u => if negb (User.is_anonymous u) then Some (User.id u) else None
  | None => None
  end.

(** ** More rows and worlds *)

Definition negative_level : gmap string JsValue :=
  <["level" := JNum (NInt (-3))]> (<["total_points" := JNum (NInt 200)]> ∅).

Definition negative_row : Db.DatabaseUserWithRelations :=
  {| Db.id := "u3"; Db.auth_id := "a3"; Db.email := None;
     Db.is_anonymous := true; Db.display_name := None;
     Db.created_at := "2024-01-01"; Db.updated_at := "2024-01-02";
     Db.profile := JNull; Db.preferences := JNull; Db.points := JObj negative_level;
     Db.streaks := JNull; Db.roles := JUndefined |}.

(** A total of [2 ^ 63], which is a double. *)
Definition huge_total : gmap string JsValue :=
  <["level" := JNum (NInt 3)]>
    (<["total_points" := JNum (NInt 9223372036854775808)]> ∅).

Definition huge_row : Db.DatabaseUserWithRelations :=
  {| Db.id := "u5"; Db.auth_id := "a5"; Db.email := None;
     Db.is_anonymous := true; Db.display_name := None;
     Db.created_at := "2024-01-01"; Db.updated_at := "2024-01-02";
     Db.profile := JNull; Db.preferences := JNull; Db.points := JObj huge_total;
     Db.streaks := JNull; Db.roles := JUndefined |}.

(** Preferences with an empty style, and a profile with an empty list of
    goals. *)
Definition blank_preferences : gmap string JsValue :=
  <["ai_response_style" := JStr ""]> (<["budget_range" := JStr "high"]> ∅).

Definition blank_row : Db.DatabaseUserWithRelations :=
  {| Db.id := "u4"; Db.auth_id := "a4"; Db.email := None;
     Db.is_anonymous := true; Db.display_name := None;
     Db.created_at := "2024-01-01"; Db.updated_at := "2024-01-02";
     Db.profile := JObj (<["health_goals" := JArr []]> ∅);
     Db.preferences := JObj blank_preferences; Db.points := JNull;
     Db.streaks := JNull; Db.roles := JUndefined |}.

(** A backend whose session call gives no session. *)
Definition backend_no_session : Supabase.Client :=
  {| Supabase.auth_getSession := Supabase.Resolves None;
     Supabase.auth_signInAnonymously :=
       Supabase.Resolves {| Supabase.data_user := None;
                            Supabase.data_session := None;
                            Supabase.error := None |};
     Supabase.auth_signInWithPassword := fun _ _ =>
       Supabase.Resolves {| Supabase.data_user := None;
                            Supabase.data_session := None;
                            Supabase.error := Some network_error |};
     Supabase.auth_signUp := fun _ _ =>
       Supabase.Resolves {| Supabase.data_user := None;
                            Supabase.data_session := None;
                            Supabase.error := None |};
     Supabase.auth_signOut := Supabase.Resolves None;
     Supabase.rpc := fun _ _ => Supabase.Rejects network_error;
     Supabase.from_select_eq_single := fun _ _ _ _ => Supabase.Rejects network_error |}.

(** A store that holds other keys beside the id. *)
Definition busy_world : World :=
  {| state := {| user := Some stale_user; session := Some anonymous_session;
                 loading := false; error := None |};
     storage := <["theme" := "dark"]> (<["current_user_id" := "u1"]> ∅) |}.

(** ** Proof support *)

(** Unfolds the operations and the combinators they are written with. *)
Ltac run :=
  cbv [signInAnonymously signInWithEmail signUpWithEmail signOut refreshUser
       clearError initializeAuth onAuthStateChange report createOrUpdateUser
       fetchUserWithRelations
       supabase_auth_getSession supabase_auth_signInAnonymously
       supabase_auth_signInWithPassword supabase_auth_signUp
       supabase_auth_signOut supabase_rpc supabase_from_select_eq_single
       try_finally try_catch mbind mret M_bind M_ret throw emit lift await
       setUser setSession setLoading setError modify
       console.log console.error safeStorage.setItem safeStorage.removeItem
       outcome final events state storage user session loading error
       session_user option_bind
       entry_exit_protocol never writes_session writes_loading_or_error
       writes_identity forallb negb andb take last app] in *.

(** Runs an operation by cases on the answers of the backend. *)
Ltac cases :=
  repeat (run;
          match goal with
          | |- context [match ?x with _ => _ end] =>
              lazymatch x with
              | context [match _ with _ => _ end] => fail
              | _ => destruct x eqn:?
              end
          end);
  run.

Ltac subst_lets := repeat match goal with r := _ |- _ => subst r end.

Section Properties.

Context (coerce : JsValue -> JsNumber) (supabase : Supabase.Client).

Lemma get_truthy (o : JsValue) (k : string) :
truthy o = true -> get o k = Normal (field o k).
Proof. destruct o; simpl; congruence. Qed.

Lemma absent_or_null_falsy (v : JsValue) : absent_or_null v -> truthy v = false.
Proof. intros [-> | ->]; reflexivity. Qed.

Lemma or_else_absent (v d : JsValue) : absent_or_null v -> v ||| d = d.
Proof. intros H. unfold or_else. by rewrite (absent_or_null_falsy v H). Qed.

(** Splits a statement about defaults and closes each part by the
  hypothesis that the column is absent or null. *)
Ltac settle :=
repeat (intros; match goal with
                | |- _ /\ _ => split
                | |- exists _, _ => eexists; split; [reflexivity |]
                end);
intros;
try match goal with
    | H : absent_or_null ?v, T : truthy ?v = true |- _ =>
        rewrite (absent_or_null_falsy v H) in T; discriminate T
    end;
repeat match goal with
       | H : absent_or_null ?v |- _ => rewrite ?(or_else_absent v _ H); clear H
       end;
try reflexivity; try discriminate.

(** The four relations of a row, each present or not. *)
Ltac relations R :=
let Hp := fresh "Hp" in
let Hq := fresh "Hq" in
let Hr := fresh "Hr" in
let Hs := fresh "Hs" in
destruct (truthy (Db.profile R)) eqn:Hp;
destruct (truthy (Db.preferences R)) eqn:Hq;
destruct (truthy (Db.points R)) eqn:Hr;
destruct (truthy (Db.streaks R)) eqn:Hs;
rewrite ?(get_truthy _ _ Hp), ?(get_truthy _ _ Hq), ?(get_truthy _ _ Hr),
  ?(get_truthy _ _ Hs);
simpl.

Lemma transform_returns (R : Db.DatabaseUserWithRelations) :
exists u,
  transformDatabaseUser coerce (Some R) = Normal (Some u) /\ identity_copied R u.
Proof.
unfold transformDatabaseUser, identity_copied.
relations R; eexists; (split; [reflexivity | repeat split]).
Qed.

(** Uses what is known of the answers of the backend in the hypotheses
  that read them. *)
Ltac answers :=
unfold materialized, fetched, rpc_params in *;
simplify_eq;
repeat match goal with
       | E : ?x = _, H : context [match ?x with _ => _ end] |- _ =>
           rewrite E in H
       end;
repeat match goal with
       | E : transformDatabaseUser _ (Some ?R) = _ |- _ =>
           let u := fresh "u" in
           let Hu := fresh "Hu" in
           let Hid := fresh "Hid" in
           destruct (transform_returns R) as (u & Hu & Hid);
           rewrite Hu in E; simplify_eq; revert Hu
       end;
intros;
simplify_eq.

Lemma transform_points_present (R : Db.DatabaseUserWithRelations) :
truthy (Db.points R) = true ->
exists u,
  transformDatabaseUser coerce (Some R) = Normal (Some u) /\
  User.points u =
    Some {| total := field (Db.points R) "total_points" ||| JNum (NInt 0);
            level := field (Db.points R) "level" ||| JNum (NInt 1);
            levelTitle :=
              getLevelTitle coerce (field (Db.points R) "level" ||| JNum (NInt 1));
            nextLevelAt :=
              nextLevel coerce
                (field (Db.points R) "total_points" ||| JNum (NInt 0)) |}.
Proof.
intros Hpoints. unfold transformDatabaseUser. rewrite Hpoints.
destruct (truthy (Db.profile R)) eqn:Hp; destruct (truthy (Db.preferences R)) eqn:Hq;
destruct (truthy (Db.streaks R)) eqn:Hs;
rewrite ?(get_truthy _ _ Hp), ?(get_truthy _ _ Hq), ?(get_truthy _ _ Hpoints),
  ?(get_truthy _ _ Hs);
simpl; eexists; split; reflexivity.
Qed.

Lemma getLevelTitle_clamped (L : Z) :
1 <= L ->
getLevelTitle coerce (JNum (NInt L)) = titles !! Z.to_nat (Z.min (L - 1) 9).
Proof.
intros HL. unfold getLevelTitle, index, Math_min, minus, ToNumber.
change (Z.of_nat (length titles) - 1) with 9.
destruct (Z.ltb_spec (Z.min (L - 1) 9) 0) as [Hneg | _]; [lia | reflexivity].
Qed.

Lemma titles_defined (L : Z) :
1 <= L -> is_Some (titles !! Z.to_nat (Z.min (L - 1) 9)).
Proof. intros HL. apply lookup_lt_is_Some. simpl. lia. Qed.

Lemma titles_last (L : Z) :
11 <= L -> titles !! Z.to_nat (Z.min (L - 1) 9) = Some "PharmaGuide Legend".
Proof. intros HL. rewrite Z.min_r by lia. reflexivity. Qed.

Lemma nextLevel_formula (P : Z) :
- Double.max_exact <= P <= Double.max_exact ->
nextLevel coerce (JNum (NInt P) ||| JNum (NInt 0)) = NInt (100 * (P / 100 + 1)).
Proof.
intros HP.
assert (Hnumber : ToNumber coerce (JNum (NInt P) ||| JNum (NInt 0)) = NInt P).
{ unfold or_else, truthy. destruct (Z.eqb_spec P 0) as [-> | _]; reflexivity. }
unfold nextLevel. rewrite Hnumber. unfold Double.max_exact in *.
destruct (Z.leb_spec (Z.abs P) 9007199254740992) as [_ | Hout]; [f_equal; lia | lia].
Qed.

(** The two computations of the threshold meet: at the ends of the range
    of the exact integers and at totals inside it, the doubles give the
    integer threshold. *)
Lemma nextLevel_double_exact_at :
Forall (fun z =>
          Double.to_Z (nextLevel_double (Double.of_Z z)) = Some ((z / 100 + 1) * 100))
       [- Double.max_exact; - Double.max_exact + 1; -150; -100; -1; 0; 1; 99; 100;
        1234; 4503599627370495; Double.max_exact - 100; Double.max_exact - 1;
        Double.max_exact].
Proof. repeat constructor. Qed.

(** ** The transformation of a row *)

(** Claim C1, as the code has it: the transformation returns a user for
  every row and never throws, and the user is the only result. The
  columns of the row itself are copied. A profile or preferences relation
  that is absent or null gives the profile of nulls and empty lists and
  the constant preferences; a points or streaks relation that is absent or
  null gives [undefined]. Inside a relation that is there, the list
  columns, the genetics, the preferences, the total and the level with
  their title and threshold, and the two streak counts get their default
  where the column is absent or null, while the names, the age, the
  gender and the last activity date are copied as they are. *)
Theorem transformDatabaseUser_total_defaults (R : Db.DatabaseUserWithRelations) :
exists u,
  (transformDatabaseUser coerce (Some R) = Normal (Some u) /\
   forall r, transformDatabaseUser coerce (Some R) = r -> r = Normal (Some u)) /\
  identity_copied R u /\ profile_defaults R u /\ preferences_defaults R u /\
  points_defaults R u /\ streaks_defaults R u.
Proof.
unfold transformDatabaseUser, identity_copied, profile_defaults,
  preferences_defaults, points_defaults, streaks_defaults.
relations R; eexists; (split; [split; [reflexivity | by intros r <-] |]); simpl.
all: settle.
Qed.

(** Claim C2, as the code has it: for a row with a points relation, a
  level [L >= 1] gives the title at index [min (L - 1) 9] of the ten
  titles, which is there, and is the last one from level 11 on; a total
  [P] of at most [2 ^ 53] in absolute value, where the doubles of the
  engine are exact, gives the threshold [100 * (floor (P / 100) + 1)]. *)
Theorem level_title_and_next_level
  (R : Db.DatabaseUserWithRelations) (pts : gmap string JsValue) :
Db.points R = JObj pts ->
exists u p,
  transformDatabaseUser coerce (Some R) = Normal (Some u) /\
  User.points u = Some p /\
  (forall L : Z,
      pts !! "level" = Some (JNum (NInt L)) -> 1 <= L ->
      levelTitle p = getLevelTitle coerce (JNum (NInt L)) /\
      levelTitle p = titles !! Z.to_nat (Z.min (L - 1) 9) /\
      is_Some (levelTitle p) /\
      (11 <= L -> levelTitle p = Some "PharmaGuide Legend")) /\
  (forall P : Z,
      pts !! "total_points" = Some (JNum (NInt P)) ->
      - Double.max_exact <= P <= Double.max_exact ->
      nextLevelAt p = NInt (100 * (P / 100 + 1))).
Proof.
intros Hpts.
destruct (transform_points_present R) as (u & Hu & Hp); [by rewrite Hpts |].
exists u; eexists; split; [exact Hu | split; [exact Hp |]].
rewrite Hpts. unfold field. simpl. split.
- intros L -> HL. simpl.
  assert (JNum (NInt L) ||| JNum (NInt 1) = JNum (NInt L)) as ->.
  { unfold or_else. simpl. destruct (Z.eqb_spec L 0); [lia | reflexivity]. }
  split; [reflexivity |].
  rewrite getLevelTitle_clamped by lia.
  split; [reflexivity | split; [by apply titles_defined | by apply titles_last]].
- intros P -> HP. simpl. by apply nextLevel_formula.
Qed.

(** ** The operations of the provider *)

(** Claim C3, as the code has it: the sign-in, sign-up and sign-out
  operations set [loading] and clear [error] first and clear [loading]
  last, whatever the backend answers; [refreshUser] writes neither
  [loading] nor [error]; [clearError] clears [error] and does nothing
  else. *)
Theorem loading_protocol (w : World) (email password : string) :
entry_exit_protocol (signInAnonymously coerce supabase w) /\
entry_exit_protocol (signInWithEmail coerce supabase email password w) /\
entry_exit_protocol (signUpWithEmail coerce supabase email password w) /\
entry_exit_protocol (signOut supabase w) /\
(never writes_loading_or_error (refreshUser coerce supabase w) /\
 loading (state (final (refreshUser coerce supabase w))) = loading (state w) /\
 error (state (final (refreshUser coerce supabase w))) = error (state w)) /\
(events (clearError w) = [SetError None] /\
 loading (state (final (clearError w))) = loading (state w) /\
 error (state (final (clearError w))) = None).
Proof.
repeat apply conj; cases; repeat split.
Qed.

(** Claim C4, as the code has it: when the backend signs the principal in
  and the materialization fails, the sign-in and sign-up operations
  return normally with the user null and the session as it was before
  the call, the persisted id untouched, no error and [loading] cleared.
  The session is stored by the subscription handler and by the start-up,
  which leave the session set and the user null when the materialization
  fails. *)
Theorem materialization_failure_swallowed (w : World) (email password : string) :
let swallowed (answer : Supabase.Promise Supabase.AuthResponse) (r : Run unit) :=
  forall a principal,
    answer = Supabase.Resolves a ->
    Supabase.error a = None ->
    Supabase.data_user a = Some principal ->
    materialized supabase principal = None ->
    outcome r = Normal tt /\
    user (state (final r)) = None /\
    session (state (final r)) = session (state w) /\
    storage (final r) = storage w /\
    error (state (final r)) = None /\
    loading (state (final r)) = false in
swallowed (Supabase.auth_signInAnonymously supabase)
          (signInAnonymously coerce supabase w) /\
swallowed (Supabase.auth_signInWithPassword supabase email password)
          (signInWithEmail coerce supabase email password w) /\
swallowed (Supabase.auth_signUp supabase email password)
          (signUpWithEmail coerce supabase email password w) /\
(forall event s principal,
    Supabase.user s = Some principal ->
    materialized supabase principal = None ->
    let r := onAuthStateChange coerce supabase event (Some s) w in
    outcome r = Normal tt /\
    session (state (final r)) = Some s /\
    user (state (final r)) = None /\
    storage (final r) = storage w) /\
(forall s principal,
    Supabase.auth_getSession supabase = Supabase.Resolves (Some s) ->
    Supabase.user s = Some principal ->
    materialized supabase principal = None ->
    let r := initializeAuth coerce supabase w in
    outcome r = Normal tt /\
    session (state (final r)) = Some s /\
    user (state (final r)) = None /\
    storage (final r) = storage w /\
    loading (state (final r)) = false).
Proof.
destruct w as [[u0 s0 l0 e0] st0].
repeat apply conj; intros; subst_lets; cases; answers; repeat split.
Qed.

(** Claim C5: after a [signOut] that returns normally the user and the
  session are null and the store has no ["current_user_id"]. *)
Theorem signOut_clears (w : World) :
outcome (signOut supabase w) = Normal tt ->
user (state (final (signOut supabase w))) = None /\
session (state (final (signOut supabase w))) = None /\
storage (final (signOut supabase w)) !! "current_user_id" = None.
Proof.
cases; intros Hok; try discriminate Hok.
repeat split. apply lookup_delete_eq.
Qed.

(** Claim C6: a notification without a session, received while a user and
  a session are set, clears both and removes the persisted id; the
  handler logs, writes the session and the user and removes the key, and
  calls nothing else, the sign-out of the backend included. *)
Theorem no_session_notification (event : string)
  (notified : option Supabase.Session) (w : World)
  (u : User.t) (s : Supabase.Session) :
user (state w) = Some u ->
session (state w) = Some s ->
session_user notified = None ->
let r := onAuthStateChange coerce supabase event notified w in
outcome r = Normal tt /\
user (state (final r)) = None /\
session (state (final r)) = None /\
storage (final r) !! "current_user_id" = None /\
events r = [ConsoleLog ("Auth state changed: " ++ event); SetSession None;
            SetUser None; RemoveItem "current_user_id"].
Proof.
intros _ _ Hnone r. subst r. unfold onAuthStateChange. rewrite Hnone.
run. repeat split. apply lookup_delete_eq.
Qed.

(** Claim C7, as the code has it: the first thing the materialization does
  is to call [create_user_with_profile] with the id of the principal and
  a flag that is true exactly when the e-mail address is absent or the
  empty string, in which case the address is sent as null. So after an
  anonymous sign-in of a principal without an address, when the row the
  backend returns carries the address and the flag it was sent, the user
  is anonymous and has a null address. *)
Theorem rpc_anonymous_flag (principal : Supabase.User) (w : World) :
(exists params,
    head (events (createOrUpdateUser coerce supabase principal w)) =
      Some (Rpc "create_user_with_profile" params) /\
    Supabase.p_auth_id params = Supabase.id principal /\
    (Supabase.p_is_anonymous params = true <->
     Supabase.email principal = None \/ Supabase.email principal = Some "") /\
    (Supabase.p_email params = None <->
     Supabase.email principal = None \/ Supabase.email principal = Some "") /\
    (Supabase.p_is_anonymous params = false ->
     Supabase.p_email params = Supabase.email principal)) /\
(forall a R,
    Supabase.auth_signInAnonymously supabase = Supabase.Resolves a ->
    Supabase.error a = None ->
    Supabase.data_user a = Some principal ->
    Supabase.email principal = None ->
    materialized supabase principal = Some R ->
    Db.email R = Supabase.p_email (rpc_params principal) ->
    Db.is_anonymous R = Supabase.p_is_anonymous (rpc_params principal) ->
    let r := signInAnonymously coerce supabase w in
    outcome r = Normal tt /\
    exists u,
      user (state (final r)) = Some u /\
      User.is_anonymous u = true /\
      User.email u = None).
Proof.
destruct w as [[u0 s0 l0 e0] st0]. split.
- exists (rpc_params principal). split.
  + unfold rpc_params. cases; reflexivity.
  + destruct principal as [i [e|]]; unfold rpc_params, str_not, str_or_null; simpl.
    * destruct (String.eqb_spec e "") as [-> | Hne]; repeat split;
        intros; try discriminate; try tauto; try (right; reflexivity).
      all: try (destruct H as [H | H]; congruence).
    * repeat split; intros; try discriminate; tauto.
- intros a R Ha Herr Huser Hemail HR Hmail Hanon.
  subst_lets. cases; answers.
  split; [reflexivity | eexists; split; [reflexivity |]].
  destruct Hid as (_ & He & Hb & _).
  rewrite He, Hb, Hmail, Hanon, Hemail. split; reflexivity.
Qed.

(** Claim C8: [refreshUser] returns normally and leaves the session, the
  error, [loading] and the store as they are. Without a session that has
  a principal it does nothing at all. With one, when the query gives a
  row, it queries once and stores the transformed row as the user; when
  the query fails or gives no row, the world stays as it is and nothing
  is written to the user, the session or the store. *)
Theorem refreshUser_frame (w : World) :
let r := refreshUser coerce supabase w in
outcome r = Normal tt /\
session (state (final r)) = session (state w) /\
loading (state (final r)) = loading (state w) /\
error (state (final r)) = error (state w) /\
storage (final r) = storage w /\
never writes_loading_or_error r /\
(session_user (session (state w)) = None -> final r = w /\ events r = []) /\
(forall principal R,
    session_user (session (state w)) = Some principal ->
    fetched supabase (Supabase.id principal) = Some R ->
    exists u,
      transformDatabaseUser coerce (Some R) = Normal (Some u) /\
      user (state (final r)) = Some u /\
      events r = [Query TABLES.USERS userSelect "auth_id" (Supabase.id principal);
                  SetUser (Some u)]) /\
(forall principal,
    session_user (session (state w)) = Some principal ->
    fetched supabase (Supabase.id principal) = None ->
    final r = w /\ never writes_identity r).
Proof.
destruct w as [[u0 s0 l0 e0] st0].
repeat apply conj; cases; try reflexivity; intros; answers.
all: try (eexists; repeat split; eassumption || reflexivity).
Qed.

(** Claim C9: the sign-in and sign-up operations leave the session as it
  is and never write it, whatever the backend answers, and so do
  [refreshUser] and [clearError]; the start-up, the subscription handler
  and [signOut] are the operations left. *)
Theorem sign_in_leaves_session (w : World) (email password : string) :
let untouched (r : Run unit) :=
  session (state (final r)) = session (state w) /\ never writes_session r in
untouched (signInAnonymously coerce supabase w) /\
untouched (signInWithEmail coerce supabase email password w) /\
untouched (signUpWithEmail coerce supabase email password w) /\
untouched (refreshUser coerce supabase w) /\
untouched (clearError w).
Proof.
repeat apply conj; cases; repeat split.
Qed.

(** Claim C10: when the sign-out of the backend answers with an error or
  rejects, [signOut] throws that error to its caller and leaves the
  user, the session and the store as they are, writing none of them; it
  sets the structured error and clears [loading]. *)
Theorem signOut_failure_keeps_state (w : World) (e : JsError.t) :
Supabase.auth_signOut supabase = Supabase.Resolves (Some e) \/
Supabase.auth_signOut supabase = Supabase.Rejects e ->
let r := signOut supabase w in
outcome r = Abrupt e /\
user (state (final r)) = user (state w) /\
session (state (final r)) = session (state w) /\
storage (final r) = storage w /\
never writes_identity r /\
error (state (final r)) = Some (sign_out_failed e) /\
loading (state (final r)) = false.
Proof.
intros [H | H]; run; rewrite H; run; repeat split.
Qed.

(** ** Beyond the claims *)

(** Closes what is left of a run: the counts and the lookups in the store. *)
Ltac finish :=
  cbv [count is_rpc is_query is_auth_call writes_error List.filter length] in *;
  repeat split;
  rewrite ?lookup_insert_eq, ?lookup_delete_eq;
  rewrite ?lookup_insert_ne, ?lookup_delete_ne by done;
  try reflexivity; try lia; try done.

(** X1. The materialization never throws and leaves the state and the
    store alone: it returns null exactly when the procedure call or the
    query fails or gives no row, and the transformed row otherwise. *)
Theorem createOrUpdateUser_total (principal : Supabase.User) (w : World) :
  let r := createOrUpdateUser coerce supabase principal w in
  final r = w /\
  none_of writes_identity (events r) /\
  none_of writes_loading_or_error (events r) /\
  ((materialized supabase principal = None /\ outcome r = Normal None) \/
   (exists R u,
       materialized supabase principal = Some R /\
       transformDatabaseUser coerce (Some R) = Normal (Some u) /\
       outcome r = Normal (Some u))).
Proof.
  intros r. subst r. unfold materialized, fetched, rpc_params, none_of.
  repeat apply conj; cases; try reflexivity; answers;
    try (left; split; reflexivity).
  right. eexists _, _. repeat split; eassumption || reflexivity.
Qed.

(** X2. The materialization calls the procedure once and queries at most
    once, the row of the principal in [users] by [auth_id], and only after
    the procedure call has resolved without an error. *)
Theorem query_follows_rpc (principal : Supabase.User) (w : World) :
  let r := createOrUpdateUser coerce supabase principal w in
  let call := Supabase.rpc supabase "create_user_with_profile" (rpc_params principal) in
  count is_rpc (events r) = 1%nat /\
  (count is_query (events r) <= 1)%nat /\
  (forall reason, call = Supabase.Rejects reason -> count is_query (events r) = 0%nat) /\
  (forall a e, call = Supabase.Resolves a -> Supabase.rpc_error a = Some e ->
               count is_query (events r) = 0%nat) /\
  (forall a, call = Supabase.Resolves a -> Supabase.rpc_error a = None ->
             take 2 (events r) =
               [Rpc "create_user_with_profile" (rpc_params principal);
                Query "users" userSelect "auth_id" (Supabase.id principal)]).
Proof.
  intros r call. subst r call. unfold rpc_params.
  repeat apply conj; intros; cases;
    unfold RPC_FUNCTIONS.CREATE_USER_WITH_PROFILE, TABLES.USERS in *;
    answers; try congruence; finish.
Qed.

(** X3. A sign-in or sign-up that the backend accepts and whose
    materialization succeeds returns normally with the transformed row as
    the user, the id of that user persisted, no error and [loading]
    cleared. *)
Theorem sign_in_persists_id (w : World) (email password : string) :
  let persisted (answer : Supabase.Promise Supabase.AuthResponse) (r : Run unit) :=
    forall a principal R,
      answer = Supabase.Resolves a ->
      Supabase.error a = None ->
      Supabase.data_user a = Some principal ->
      materialized supabase principal = Some R ->
      exists u,
        transformDatabaseUser coerce (Some R) = Normal (Some u) /\
        outcome r = Normal tt /\
        user (state (final r)) = Some u /\
        storage (final r) !! "current_user_id" = Some (User.id u) /\
        User.id u = Db.id R /\
        error (state (final r)) = None /\
        loading (state (final r)) = false in
  persisted (Supabase.auth_signInAnonymously supabase)
            (signInAnonymously coerce supabase w) /\
  persisted (Supabase.auth_signInWithPassword supabase email password)
            (signInWithEmail coerce supabase email password w) /\
  persisted (Supabase.auth_signUp supabase email password)
            (signUpWithEmail coerce supabase email password w).
Proof.
  destruct w as [[u0 s0 l0 e0] st0].
  repeat apply conj; intros; subst_lets; cases; answers.
  all: destruct Hid as (Hid & _); eexists; repeat split;
    try eassumption; try reflexivity; apply lookup_insert_eq.
Qed.

(** X4. A sign-in or sign-up that the backend refuses, by an error in its
    answer or by a rejected promise, throws that error to the caller after
    storing it with the message and the code of the backend, or those of
    the operation where the backend gives none; the user, the session and
    the store stay as they are and the materialization is not begun. *)
Theorem sign_in_failure_reported (w : World) (email password : string) (e : JsError.t) :
  let reported (answer : Supabase.Promise Supabase.AuthResponse)
               (message code : string) (r : Run unit) :=
    auth_fails answer e ->
    outcome r = Abrupt e /\
    user (state (final r)) = user (state w) /\
    session (state (final r)) = session (state w) /\
    storage (final r) = storage w /\
    loading (state (final r)) = false /\
    count is_rpc (events r) = 0%nat /\
    never writes_identity r /\
    exists err, error (state (final r)) = Some err /\ reports message code e err in
  reported (Supabase.auth_signInAnonymously supabase)
           "Failed to sign in anonymously" "auth/anonymous-failed"
           (signInAnonymously coerce supabase w) /\
  reported (Supabase.auth_signInWithPassword supabase email password)
           "Failed to sign in" "auth/sign-in-failed"
           (signInWithEmail coerce supabase email password w) /\
  reported (Supabase.auth_signUp supabase email password)
           "Failed to sign up" "auth/sign-up-failed"
           (signUpWithEmail coerce supabase email password w).
Proof.
  destruct w as [[u0 s0 l0 e0] st0].
  assert (Hreports : forall message code,
             reports message code e
               {| AuthError.message := str_or (JsError.message e) message;
                  AuthError.code := str_or (JsError.code e) code;
                  AuthError.originalError := e |}).
  { intros message code. destruct e as [[m|] [c|]]; unfold reports, str_or; simpl;
      repeat split; intros;
      repeat match goal with
             | H : _ \/ _ |- _ => destruct H
             | H : Some _ = Some _ |- _ => injection H as H; subst
             | |- context [String.eqb ?x ""] => destruct (String.eqb_spec x "")
             end; try congruence; try discriminate. }
  repeat apply conj; intros [Hrej | (a & Hres & Herr)]; subst_lets; run;
    rewrite ?Hrej, ?Hres; run; rewrite ?Herr; run; finish; eexists; split;
    try reflexivity; apply Hreports.
Qed.

(** X5. A sign-in or sign-up that the backend answers without an error
    and without a principal does nothing but the calls of its protocol:
    the user, the session and the store stay as they are. *)
Theorem sign_in_without_principal (w : World) (email password : string) :
  let idle (answer : Supabase.Promise Supabase.AuthResponse) (call : Event)
           (r : Run unit) :=
    forall a,
      answer = Supabase.Resolves a ->
      Supabase.error a = None ->
      Supabase.data_user a = None ->
      outcome r = Normal tt /\
      events r = [SetLoading true; SetError None; call; SetLoading false] /\
      user (state (final r)) = user (state w) /\
      session (state (final r)) = session (state w) /\
      storage (final r) = storage w in
  idle (Supabase.auth_signInAnonymously supabase) SignInAnonymously
       (signInAnonymously coerce supabase w) /\
  idle (Supabase.auth_signInWithPassword supabase email password)
       (SignInWithPassword email password)
       (signInWithEmail coerce supabase email password w) /\
  idle (Supabase.auth_signUp supabase email password) (SignUp email password)
       (signUpWithEmail coerce supabase email password w).
Proof.
  destruct w as [[u0 s0 l0 e0] st0].
  repeat apply conj; intros a Ha Herr Huser; subst_lets; run;
    rewrite Ha; run; rewrite Herr, Huser; run; repeat split.
Qed.

(** X6. The start-up never throws, never writes the error and always ends
    by clearing [loading]. When the session call rejects, which it logs,
    or gives no session with a principal, the user, the session and the
    store stay as they are; when it gives one and the materialization
    succeeds, the session and the user are stored and the id persisted. *)
Theorem initializeAuth_settles (w : World) :
  let r := initializeAuth coerce supabase w in
  outcome r = Normal tt /\
  loading (state (final r)) = false /\
  last (events r) = Some (SetLoading false) /\
  error (state (final r)) = error (state w) /\
  never writes_error r /\
  (forall reason,
      Supabase.auth_getSession supabase = Supabase.Rejects reason ->
      events r = [GetSession; ConsoleError "Error initializing auth:"; SetLoading false] /\
      user (state (final r)) = user (state w) /\
      session (state (final r)) = session (state w) /\
      storage (final r) = storage w) /\
  (forall s,
      Supabase.auth_getSession supabase = Supabase.Resolves s ->
      session_user s = None ->
      events r = [GetSession; SetLoading false] /\
      user (state (final r)) = user (state w) /\
      session (state (final r)) = session (state w) /\
      storage (final r) = storage w) /\
  (forall s principal R,
      Supabase.auth_getSession supabase = Supabase.Resolves s ->
      session_user s = Some principal ->
      materialized supabase principal = Some R ->
      exists u,
        transformDatabaseUser coerce (Some R) = Normal (Some u) /\
        session (state (final r)) = s /\
        user (state (final r)) = Some u /\
        storage (final r) !! "current_user_id" = Some (User.id u)).
Proof.
  destruct w as [[u0 s0 l0 e0] st0].
  repeat apply conj; intros; subst_lets; cases; answers; try congruence; finish.
  all: eexists; repeat split; try eassumption; try reflexivity;
    apply lookup_insert_eq.
Qed.

(** X7. The subscription handler never throws and never writes [loading]
    or the error. A notification with a principal stores its session
    before anything else is known, and when the materialization succeeds
    it stores the transformed row as the user and persists its id. *)
Theorem notification_with_session (event : string)
    (notified : option Supabase.Session) (w : World) :
  let r := onAuthStateChange coerce supabase event notified w in
  outcome r = Normal tt /\
  never writes_loading_or_error r /\
  loading (state (final r)) = loading (state w) /\
  error (state (final r)) = error (state w) /\
  (forall principal,
      session_user notified = Some principal ->
      session (state (final r)) = notified /\
      take 2 (events r) =
        [ConsoleLog ("Auth state changed: " ++ event); SetSession notified] /\
      forall R,
        materialized supabase principal = Some R ->
        exists u,
          transformDatabaseUser coerce (Some R) = Normal (Some u) /\
          user (state (final r)) = Some u /\
          storage (final r) !! "current_user_id" = Some (User.id u)).
Proof.
  destruct w as [[u0 s0 l0 e0] st0].
  repeat apply conj; intros; subst_lets; cases; answers; try congruence; finish.
  all: intros; answers; try congruence.
  all: eexists; repeat split; try eassumption; try reflexivity;
    apply lookup_insert_eq.
Qed.

(** X8. No operation reads or writes a key of the store other than
    ["current_user_id"]: every other key keeps its value. *)
Theorem other_keys_untouched (w : World) (email password event : string)
    (notified : option Supabase.Session) (k : string) :
  k <> "current_user_id" ->
  let kept (r : Run unit) := storage (final r) !! k = storage w !! k in
  kept (signInAnonymously coerce supabase w) /\
  kept (signInWithEmail coerce supabase email password w) /\
  kept (signUpWithEmail coerce supabase email password w) /\
  kept (signOut supabase w) /\
  kept (refreshUser coerce supabase w) /\
  kept (clearError w) /\
  kept (initializeAuth coerce supabase w) /\
  kept (onAuthStateChange coerce supabase event notified w).
Proof.
  intros Hk. assert (Hk' : "current_user_id" <> k) by congruence.
  destruct w as [[u0 s0 l0 e0] st0].
  repeat apply conj; cases; finish.
Qed.

(** X9. Where the persisted id is that of the user in memory, it still is
    after every operation but [refreshUser], whatever the backend answers;
    after [refreshUser] it is when the row the query gives, if it gives
    one, has the persisted id. *)
Theorem id_persisted_preserved (w : World) (email password event : string)
    (notified : option Supabase.Session) :
  id_persisted w ->
  id_persisted (final (signInAnonymously coerce supabase w)) /\
  id_persisted (final (signInWithEmail coerce supabase email password w)) /\
  id_persisted (final (signUpWithEmail coerce supabase email password w)) /\
  id_persisted (final (signOut supabase w)) /\
  id_persisted (final (clearError w)) /\
  id_persisted (final (initializeAuth coerce supabase w)) /\
  id_persisted (final (onAuthStateChange coerce supabase event notified w)) /\
  ((forall principal R,
       session_user (session (state w)) = Some principal ->
       fetched supabase (Supabase.id principal) = Some R ->
       storage w !! "current_user_id" = Some (Db.id R)) ->
   id_persisted (final (refreshUser coerce supabase w))).
Proof.
  destruct w as [[u0 s0 l0 e0] st0]. unfold id_persisted. intros Hw.
  repeat apply conj; cases; intros; answers;
    rewrite ?lookup_insert_eq; try reflexivity; try (by apply Hw).
  destruct Hid as (-> & _).
  match goal with
  | H : forall principal R, _ -> _ -> _ |- _ => eapply H; [reflexivity |]
  end.
  repeat match goal with
         | E : ?x = _ |- context [match ?x with _ => _ end] => rewrite E
         end.
  assumption.
Qed.

(** X10. No operation repeats a call: each run makes at most one
    authentication call, one procedure call and one query. *)
Theorem no_retries (w : World) (email password event : string)
    (notified : option Supabase.Session) :
  let once (r : Run unit) :=
    (count is_auth_call (events r) <= 1 /\
     count is_rpc (events r) <= 1 /\
     count is_query (events r) <= 1)%nat in
  once (signInAnonymously coerce supabase w) /\
  once (signInWithEmail coerce supabase email password w) /\
  once (signUpWithEmail coerce supabase email password w) /\
  once (signOut supabase w) /\
  once (refreshUser coerce supabase w) /\
  once (clearError w) /\
  once (initializeAuth coerce supabase w) /\
  once (onAuthStateChange coerce supabase event notified w).
Proof.
  repeat apply conj; cases; finish.
Qed.

(** X12. A level below one has no title of its own: a negative level is
    kept and its title is [undefined], and a level of zero is replaced by
    level one with the first title. *)
Theorem level_below_one
    (R : Db.DatabaseUserWithRelations) (pts : gmap string JsValue) (L : Z) :
  Db.points R = JObj pts ->
  pts !! "level" = Some (JNum (NInt L)) ->
  L <= 0 ->
  exists u p,
    transformDatabaseUser coerce (Some R) = Normal (Some u) /\
    User.points u = Some p /\
    (L < 0 -> level p = JNum (NInt L) /\ levelTitle p = None) /\
    (L = 0 -> level p = JNum (NInt 1) /\ levelTitle p = Some "Health Novice").
Proof.
  intros Hpts Hlevel HL.
  destruct (transform_points_present R) as (u & Hu & Hp); [by rewrite Hpts |].
  exists u; eexists; split; [exact Hu | split; [exact Hp |]].
  rewrite Hpts. unfold field. rewrite Hlevel. simpl. split.
  - intros Hneg. unfold or_else. simpl.
    destruct (Z.eqb_spec L 0) as [-> | _]; [lia |]. simpl. split; [reflexivity |].
    unfold getLevelTitle, index, Math_min, minus, ToNumber.
    change (Z.of_nat (length titles) - 1) with 9.
    destruct (Z.ltb_spec (Z.min (L - 1) 9) 0) as [_ | Hge]; [reflexivity | lia].
  - intros ->. split; reflexivity.
Qed.

(** X13. For a total of at most [2 ^ 53] in absolute value, the threshold
    of the next level is the least multiple of 100 above the total: it is
    a multiple of 100, greater than the total and at most 100 above it;
    the total itself is kept. *)
Theorem next_level_above_total
    (R : Db.DatabaseUserWithRelations) (pts : gmap string JsValue) (P : Z) :
  Db.points R = JObj pts ->
  pts !! "total_points" = Some (JNum (NInt P)) ->
  - Double.max_exact <= P <= Double.max_exact ->
  exists u p n,
    transformDatabaseUser coerce (Some R) = Normal (Some u) /\
    User.points u = Some p /\
    total p = JNum (NInt P) /\
    nextLevelAt p = NInt n /\
    P < n <= P + 100 /\
    n mod 100 = 0.
Proof.
  intros Hpts Htotal HP.
  destruct (transform_points_present R) as (u & Hu & Hp); [by rewrite Hpts |].
  exists u; eexists; exists (100 * (P / 100 + 1)).
  split; [exact Hu | split; [exact Hp |]].
  rewrite Hpts. unfold field. rewrite Htotal. simpl.
  split; [| split; [by apply nextLevel_formula |]].
  - unfold or_else. simpl. destruct (Z.eqb_spec P 0) as [-> | _]; reflexivity.
  - pose proof (Z.div_mod P 100 ltac:(lia)) as Hdiv.
    pose proof (Z.mod_pos_bound P 100 ltac:(lia)) as Hmod.
    split; [lia |].
    rewrite Z.mul_comm. apply Z.mod_mul. lia.
Qed.

(** X14. Inside a relation that is there, a value is replaced by its
    default exactly when it is falsy, so an empty string, a zero or a
    [false] are replaced like a null, and every other value, an empty list
    included, is kept; and a relation is taken as missing exactly when it
    is falsy. *)
Theorem falsy_values_defaulted (R : Db.DatabaseUserWithRelations) :
  exists u,
    transformDatabaseUser coerce (Some R) = Normal (Some u) /\
    (let p := Db.profile R in
     let q := User.profile u in
     (truthy p = false -> q = emptyProfile) /\
     (truthy p = true ->
      defaulted (field p "health_goals") (JArr []) (healthGoals q) /\
      defaulted (field p "conditions") (JArr []) (conditions q) /\
      defaulted (field p "medications") (JArr []) (medications q) /\
      defaulted (field p "allergies") (JArr []) (allergies q) /\
      defaulted (field p "genetics") JNull (genetics q))) /\
    (let p := Db.preferences R in
     let q := User.preferences u in
     (truthy p = false -> q = defaultPreferences) /\
     (truthy p = true ->
      defaulted (field p "ai_response_style") (JStr "concise") (aiResponseStyle q) /\
      defaulted (field p "budget_range") (JStr "mid") (budgetRange q) /\
      defaulted (field p "primary_focus") (JStr "safety") (primaryFocus q) /\
      defaulted (field p "notifications") defaultNotifications (notifications q))) /\
    (let p := Db.points R in
     (truthy p = false -> User.points u = None) /\
     (truthy p = true ->
      exists q, User.points u = Some q /\
        defaulted (field p "total_points") (JNum (NInt 0)) (total q) /\
        defaulted (field p "level") (JNum (NInt 1)) (level q))) /\
    (let p := Db.streaks R in
     (truthy p = false -> User.streaks u = None) /\
     (truthy p = true ->
      exists q, User.streaks u = Some q /\
        defaulted (field p "current_streak") (JNum (NInt 0)) (current q) /\
        defaulted (field p "longest_streak") (JNum (NInt 0)) (longest q))).
Proof.
  assert (Hor : forall v d, defaulted v d (v ||| d)).
  { intros v d. unfold defaulted, or_else. destruct (truthy v); split; congruence. }
  unfold transformDatabaseUser.
  relations R; eexists; (split; [reflexivity |]); simpl.
  all: repeat match goal with
              | |- _ /\ _ => split
              | |- _ -> _ => intros ?
              | |- exists _, _ => eexists; split; [reflexivity |]
              end;
    try discriminate; try reflexivity; simpl; apply Hor.
Qed.

(** X15. What [AppContent] gives to the gamification service follows the
    row of the backend: after a sign-in or sign-up whose materialization
    succeeds it is the id of the row when the row is not anonymous and
    null when it is, and it is null after a sign-in whose materialization
    fails and after a [signOut] that returns normally. *)
Theorem gamification_user (w : World) (email password : string) :
  let follows (answer : Supabase.Promise Supabase.AuthResponse) (r : Run unit) :=
    forall a principal,
      answer = Supabase.Resolves a ->
      Supabase.error a = None ->
      Supabase.data_user a = Some principal ->
      AppContent_setUserId (user (state (final r))) =
        match materialized supabase principal with
        | Some R => if Db.is_anonymous R then None else Some (Db.id R)
        | None => None
        end in
  follows (Supabase.auth_signInAnonymously supabase)
          (signInAnonymously coerce supabase w) /\
  follows (Supabase.auth_signInWithPassword supabase email password)
          (signInWithEmail coerce supabase email password w) /\
  follows (Supabase.auth_signUp supabase email password)
          (signUpWithEmail coerce supabase email password w) /\
  (outcome (signOut supabase w) = Normal tt ->
   AppContent_setUserId (user (state (final (signOut supabase w)))) = None).
Proof.
  destruct w as [[u0 s0 l0 e0] st0].
  unfold materialized, fetched, rpc_params, AppContent_setUserId.
  repeat apply conj; intros; subst_lets; cases; answers; try congruence;
    try reflexivity.
  all: destruct Hid as (Hi & _ & Ha & _); congruence.
Qed.

End Properties.

(** ** The theorems at work *)

Lemma level_title_and_next_level_witness :
  Db.points scored_row = JObj level12 /\
  exists u p,
    transformDatabaseUser coerce_nan (Some scored_row) = Normal (Some u) /\
    User.points u = Some p /\
    levelTitle p = Some "PharmaGuide Legend" /\
    nextLevelAt p = NInt 1300.
Proof.
  split; [reflexivity |].
  destruct (level_title_and_next_level coerce_nan scored_row level12 eq_refl)
    as (u & p & Hu & Hp & Hlevel & Hnext).
  exists u, p. split; [exact Hu | split; [exact Hp | split]].
  - destruct (Hlevel 12 eq_refl ltac:(lia)) as (_ & _ & _ & Hlast).
    apply Hlast. lia.
  - apply (Hnext 1234 eq_refl). unfold Double.max_exact. lia.
Defined.

(** Claim C2 as it is written fails for a total beyond [2 ^ 53]: the total
    [2 ^ 63] is a double, the engine rounds the quotient, the sum and the
    product, and the threshold is [2 ^ 63] itself, not the multiple of 100
    above it. *)
Lemma next_level_rounded_counterexample :
  Db.points huge_row = JObj huge_total /\
  huge_total !! "total_points" = Some (JNum (NInt (2 ^ 63))) /\
  Double.to_Z (Double.of_Z (2 ^ 63)) = Some (2 ^ 63) /\
  exists u p,
    transformDatabaseUser coerce_nan (Some huge_row) = Normal (Some u) /\
    User.points u = Some p /\
    nextLevelAt p = NInt (2 ^ 63) /\
    nextLevelAt p <> NInt (100 * (2 ^ 63 / 100 + 1)).
Proof.
  split; [reflexivity | split; [reflexivity | split; [reflexivity |]]].
  eexists _, _. split; [vm_compute; reflexivity |].
  split; [reflexivity | split; [reflexivity |]].
  vm_compute. discriminate.
Qed.

(** Claim C1 as it is written fails on a row whose points relation is
    null, whose streaks relation is absent and whose profile has no
    [first_name]: the points, the streaks and the first name of the user
    are [undefined], which is neither null, an empty list nor a constant. *)
Lemma transformDatabaseUser_undefined_fields :
  Db.points bare_row = JNull /\
  Db.streaks bare_row = JUndefined /\
  field (Db.profile bare_row) "first_name" = JUndefined /\
  exists u,
    transformDatabaseUser coerce_nan (Some bare_row) = Normal (Some u) /\
    User.points u = None /\
    User.streaks u = None /\
    firstName (User.profile u) = JUndefined.
Proof.
  repeat split. eexists. repeat split.
Qed.

(** Claim C3 as it is written fails for [refreshUser] and [clearError]:
    neither begins by setting [loading] nor ends by clearing it, and
    [refreshUser] leaves the error of an earlier operation where it is. *)
Lemma loading_protocol_counterexample :
  ~ entry_exit_protocol (refreshUser coerce_nan (backend_up bare_row) signed_in_world) /\
  ~ entry_exit_protocol (clearError signed_in_world) /\
  events (clearError signed_in_world) = [SetError None] /\
  error (state (final (refreshUser coerce_nan (backend_up bare_row) signed_in_world)))
    = Some stale_error.
Proof.
  repeat split; try intros (Hentry & _); try discriminate Hentry.
Qed.

Lemma materialization_failure_swallowed_witness :
  Supabase.auth_signInAnonymously backend_rpc_down
    = Supabase.Resolves (signed_in anonymous_principal) /\
  materialized backend_rpc_down anonymous_principal = None /\
  outcome (signInAnonymously coerce_nan backend_rpc_down signed_in_world) = Normal tt /\
  user (state (final (signInAnonymously coerce_nan backend_rpc_down signed_in_world)))
    = None /\
  session (state (final (signInAnonymously coerce_nan backend_rpc_down signed_in_world)))
    = Some anonymous_session.
Proof.
  split; [reflexivity | split; [reflexivity |]].
  destruct (materialization_failure_swallowed coerce_nan backend_rpc_down
              signed_in_world "" "") as (Hanon & _).
  destruct (Hanon (signed_in anonymous_principal) anonymous_principal
              eq_refl eq_refl eq_refl eq_refl) as (Hout & Huser & Hsession & _).
  split; [exact Hout | split; [exact Huser | exact Hsession]].
Defined.

(** Claim C4 as it is written fails where nobody was signed in before: the
    backend signs the principal in, the procedure call fails, and the
    session is still null when [signInAnonymously] returns. *)
Lemma session_unset_counterexample :
  Supabase.auth_signInAnonymously backend_rpc_down
    = Supabase.Resolves (signed_in anonymous_principal) /\
  materialized backend_rpc_down anonymous_principal = None /\
  outcome (signInAnonymously coerce_nan backend_rpc_down signed_out_world) = Normal tt /\
  session (state (final (signInAnonymously coerce_nan backend_rpc_down signed_out_world)))
    = None.
Proof.
  repeat split.
Qed.

Lemma signOut_clears_witness :
  outcome (signOut (backend_up bare_row) signed_in_world) = Normal tt /\
  user (state (final (signOut (backend_up bare_row) signed_in_world))) = None /\
  session (state (final (signOut (backend_up bare_row) signed_in_world))) = None /\
  storage (final (signOut (backend_up bare_row) signed_in_world)) !! "current_user_id"
    = None.
Proof.
  split; [reflexivity |].
  apply (signOut_clears (backend_up bare_row) signed_in_world). reflexivity.
Defined.

Lemma no_session_notification_witness :
  user (state signed_in_world) = Some stale_user /\
  session (state signed_in_world) = Some anonymous_session /\
  let r := onAuthStateChange coerce_nan backend_down "SIGNED_OUT" None signed_in_world in
  user (state (final r)) = None /\
  session (state (final r)) = None /\
  storage (final r) !! "current_user_id" = None.
Proof.
  split; [reflexivity | split; [reflexivity |]].
  destruct (no_session_notification coerce_nan backend_down "SIGNED_OUT" None
              signed_in_world stale_user anonymous_session eq_refl eq_refl eq_refl)
    as (_ & Huser & Hsession & Hkey & _).
  split; [exact Huser | split; [exact Hsession | exact Hkey]].
Defined.

Lemma rpc_anonymous_flag_witness :
  Supabase.auth_signInAnonymously (backend_up bare_row)
    = Supabase.Resolves (signed_in anonymous_principal) /\
  materialized (backend_up bare_row) anonymous_principal = Some bare_row /\
  exists u,
    user (state (final (signInAnonymously coerce_nan (backend_up bare_row)
                          signed_out_world))) = Some u /\
    User.is_anonymous u = true /\
    User.email u = None.
Proof.
  split; [reflexivity | split; [reflexivity |]].
  destruct (rpc_anonymous_flag coerce_nan (backend_up bare_row) anonymous_principal
              signed_out_world) as (_ & Hsign).
  destruct (Hsign (signed_in anonymous_principal) bare_row
              eq_refl eq_refl eq_refl eq_refl eq_refl eq_refl eq_refl)
    as (_ & Huser).
  exact Huser.
Defined.

(** Claim C7 as it is written fails for a principal whose address is the
    empty string: the address is there and the flag is true. And the user
    of an anonymous sign-in is what the row of the backend says: with a row
    that is not anonymous, neither is the user. *)
Lemma blank_email_counterexample :
  Supabase.email blank_principal <> None /\
  head (events (createOrUpdateUser coerce_nan backend_down blank_principal
                  signed_out_world))
    = Some (Rpc "create_user_with_profile"
              {| Supabase.p_auth_id := "a3";
                 Supabase.p_email := None;
                 Supabase.p_is_anonymous := true |}) /\
  Supabase.email anonymous_principal = None /\
  User.is_anonymous
    <$> user (state (final (signInAnonymously coerce_nan (backend_up scored_row)
                              signed_out_world)))
    = Some false.
Proof.
  repeat split. discriminate.
Qed.

Lemma refreshUser_frame_witness :
  session_user (session (state signed_in_world)) = Some anonymous_principal /\
  fetched (backend_up scored_row) (Supabase.id anonymous_principal) = Some scored_row /\
  exists u,
    transformDatabaseUser coerce_nan (Some scored_row) = Normal (Some u) /\
    user (state (final (refreshUser coerce_nan (backend_up scored_row) signed_in_world)))
      = Some u /\
    session (state (final (refreshUser coerce_nan (backend_up scored_row)
                             signed_in_world)))
      = Some anonymous_session.
Proof.
  split; [reflexivity | split; [reflexivity |]].
  destruct (refreshUser_frame coerce_nan (backend_up scored_row) signed_in_world)
    as (_ & Hsession & _ & _ & _ & _ & _ & Hrow & _).
  destruct (Hrow anonymous_principal scored_row eq_refl eq_refl)
    as (u & Hu & Huser & _).
  exists u. split; [exact Hu | split; [exact Huser | exact Hsession]].
Defined.

Lemma signOut_failure_keeps_state_witness :
  Supabase.auth_signOut backend_down = Supabase.Rejects network_error /\
  outcome (signOut backend_down signed_in_world) = Abrupt network_error /\
  user (state (final (signOut backend_down signed_in_world))) = Some stale_user /\
  session (state (final (signOut backend_down signed_in_world)))
    = Some anonymous_session /\
  storage (final (signOut backend_down signed_in_world)) !! "current_user_id"
    = Some "u1".
Proof.
  split; [reflexivity |].
  destruct (signOut_failure_keeps_state backend_down signed_in_world network_error
              (or_intror eq_refl))
    as (Hout & Huser & Hsession & Hstore & _).
  split; [exact Hout | split; [exact Huser | split; [exact Hsession |]]].
  rewrite Hstore. reflexivity.
Defined.

(** ** The further theorems at work *)

Lemma query_follows_rpc_witness :
  Supabase.rpc backend_rpc_down "create_user_with_profile" (rpc_params anonymous_principal)
    = Supabase.Resolves {| Supabase.rpc_data := None;
                           Supabase.rpc_error := Some network_error |} /\
  count is_query (events (createOrUpdateUser coerce_nan backend_rpc_down
                            anonymous_principal signed_out_world)) = 0%nat.
Proof.
  split; [reflexivity |].
  destruct (query_follows_rpc coerce_nan backend_rpc_down anonymous_principal
              signed_out_world) as (_ & _ & _ & Herr & _).
  exact (Herr _ network_error eq_refl eq_refl).
Defined.

Lemma sign_in_persists_id_witness :
  Supabase.auth_signInAnonymously (backend_up bare_row)
    = Supabase.Resolves (signed_in anonymous_principal) /\
  materialized (backend_up bare_row) anonymous_principal = Some bare_row /\
  storage (final (signInAnonymously coerce_nan (backend_up bare_row) signed_out_world))
    !! "current_user_id" = Some "u1".
Proof.
  split; [reflexivity | split; [reflexivity |]].
  destruct (sign_in_persists_id coerce_nan (backend_up bare_row) signed_out_world "" "")
    as (Hanon & _).
  destruct (Hanon (signed_in anonymous_principal) anonymous_principal bare_row
              eq_refl eq_refl eq_refl eq_refl)
    as (u & _ & _ & _ & Hkey & Hid & _).
  rewrite Hkey, Hid. reflexivity.
Defined.

Lemma sign_in_failure_reported_witness :
  auth_fails (Supabase.auth_signInAnonymously backend_down) network_error /\
  outcome (signInAnonymously coerce_nan backend_down signed_in_world)
    = Abrupt network_error /\
  exists err,
    error (state (final (signInAnonymously coerce_nan backend_down signed_in_world)))
      = Some err /\
    AuthError.message err = "Network request failed" /\
    AuthError.code err = "auth/anonymous-failed".
Proof.
  assert (Hfails : auth_fails (Supabase.auth_signInAnonymously backend_down)
                     network_error) by (left; reflexivity).
  split; [exact Hfails |].
  destruct (sign_in_failure_reported coerce_nan backend_down signed_in_world "" ""
              network_error) as (Hanon & _).
  destruct (Hanon Hfails)
    as (Hout & _ & _ & _ & _ & _ & _ & err & Herr & _ & Hm & _ & _ & Hc).
  split; [exact Hout |]. exists err. split; [exact Herr | split].
  - apply (Hm "Network request failed"); [reflexivity | discriminate].
  - apply Hc. left. reflexivity.
Defined.

Lemma sign_in_without_principal_witness :
  Supabase.auth_signInAnonymously backend_no_session
    = Supabase.Resolves {| Supabase.data_user := None;
                           Supabase.data_session := None;
                           Supabase.error := None |} /\
  events (signInAnonymously coerce_nan backend_no_session signed_in_world)
    = [SetLoading true; SetError None; SignInAnonymously; SetLoading false] /\
  user (state (final (signInAnonymously coerce_nan backend_no_session signed_in_world)))
    = Some stale_user.
Proof.
  split; [reflexivity |].
  destruct (sign_in_without_principal coerce_nan backend_no_session signed_in_world
              "" "") as (Hanon & _).
  destruct (Hanon _ eq_refl eq_refl eq_refl) as (_ & Hevents & Huser & _).
  split; [exact Hevents | exact Huser].
Defined.

Lemma initializeAuth_settles_witness :
  Supabase.auth_getSession (backend_up bare_row)
    = Supabase.Resolves (Some anonymous_session) /\
  session_user (Some anonymous_session) = Some anonymous_principal /\
  materialized (backend_up bare_row) anonymous_principal = Some bare_row /\
  exists u,
    user (state (final (initializeAuth coerce_nan (backend_up bare_row)
                          {| state := initialState; storage := ∅ |}))) = Some u /\
    session (state (final (initializeAuth coerce_nan (backend_up bare_row)
                             {| state := initialState; storage := ∅ |})))
      = Some anonymous_session /\
    loading (state (final (initializeAuth coerce_nan (backend_up bare_row)
                             {| state := initialState; storage := ∅ |}))) = false.
Proof.
  split; [reflexivity | split; [reflexivity | split; [reflexivity |]]].
  destruct (initializeAuth_settles coerce_nan (backend_up bare_row)
              {| state := initialState; storage := ∅ |})
    as (_ & Hloading & _ & _ & _ & _ & _ & Hrow).
  destruct (Hrow (Some anonymous_session) anonymous_principal bare_row
              eq_refl eq_refl eq_refl) as (u & _ & Hsession & Huser & _).
  exists u. split; [exact Huser | split; [exact Hsession | exact Hloading]].
Defined.

Lemma notification_with_session_witness :
  session_user (Some anonymous_session) = Some anonymous_principal /\
  materialized (backend_up bare_row) anonymous_principal = Some bare_row /\
  exists u,
    user (state (final (onAuthStateChange coerce_nan (backend_up bare_row) "SIGNED_IN"
                          (Some anonymous_session) signed_out_world))) = Some u /\
    storage (final (onAuthStateChange coerce_nan (backend_up bare_row) "SIGNED_IN"
                      (Some anonymous_session) signed_out_world))
      !! "current_user_id" = Some (User.id u).
Proof.
  split; [reflexivity | split; [reflexivity |]].
  destruct (notification_with_session coerce_nan (backend_up bare_row) "SIGNED_IN"
              (Some anonymous_session) signed_out_world)
    as (_ & _ & _ & _ & Hprincipal).
  destruct (Hprincipal anonymous_principal eq_refl) as (_ & _ & Hrow).
  destruct (Hrow bare_row eq_refl) as (u & _ & Huser & Hkey).
  exists u. split; [exact Huser | exact Hkey].
Defined.

Lemma other_keys_untouched_witness :
  "theme" <> "current_user_id" /\
  storage (final (signOut (backend_up bare_row) busy_world)) !! "theme" = Some "dark".
Proof.
  assert (Hne : "theme" <> "current_user_id") by discriminate.
  split; [exact Hne |].
  destruct (other_keys_untouched coerce_nan (backend_up bare_row) busy_world "" "" ""
              None "theme" Hne) as (_ & _ & _ & Hout & _).
  rewrite Hout. reflexivity.
Defined.

Lemma id_persisted_preserved_witness :
  id_persisted signed_in_world /\
  id_persisted (final (signInWithEmail coerce_nan (backend_up scored_row) "new@x.com"
                         "pw123456" signed_in_world)).
Proof.
  assert (Hw : id_persisted signed_in_world).
  { intros u Hu. injection Hu as <-. reflexivity. }
  split; [exact Hw |].
  destruct (id_persisted_preserved coerce_nan (backend_up scored_row) signed_in_world
              "new@x.com" "pw123456" "" None Hw) as (_ & Hemail & _).
  exact Hemail.
Defined.

Lemma level_below_one_witness :
  Db.points negative_row = JObj negative_level /\
  negative_level !! "level" = Some (JNum (NInt (-3))) /\
  exists u p,
    transformDatabaseUser coerce_nan (Some negative_row) = Normal (Some u) /\
    User.points u = Some p /\
    level p = JNum (NInt (-3)) /\
    levelTitle p = None.
Proof.
  split; [reflexivity | split; [reflexivity |]].
  destruct (level_below_one coerce_nan negative_row negative_level (-3)
              eq_refl eq_refl ltac:(lia)) as (u & p & Hu & Hp & Hneg & _).
  exists u, p. split; [exact Hu | split; [exact Hp | apply Hneg; lia]].
Defined.

Lemma next_level_above_total_witness :
  Db.points scored_row = JObj level12 /\
  level12 !! "total_points" = Some (JNum (NInt 1234)) /\
  - Double.max_exact <= 1234 <= Double.max_exact /\
  exists u p n,
    transformDatabaseUser coerce_nan (Some scored_row) = Normal (Some u) /\
    User.points u = Some p /\
    nextLevelAt p = NInt n /\
    1234 < n <= 1334 /\
    n mod 100 = 0.
Proof.
  assert (Hexact : - Double.max_exact <= 1234 <= Double.max_exact)
    by (unfold Double.max_exact; lia).
  split; [reflexivity | split; [reflexivity | split; [exact Hexact |]]].
  destruct (next_level_above_total coerce_nan scored_row level12 1234
              eq_refl eq_refl Hexact)
    as (u & p & n & Hu & Hp & _ & Hn & Hbounds & Hmod).
  exists u, p, n.
  split; [exact Hu | split; [exact Hp | split; [exact Hn | split; [lia | exact Hmod]]]].
Defined.

Lemma falsy_values_defaulted_witness :
  truthy (Db.preferences blank_row) = true /\
  truthy (field (Db.preferences blank_row) "ai_response_style") = false /\
  truthy (field (Db.preferences blank_row) "budget_range") = true /\
  truthy (field (Db.profile blank_row) "health_goals") = true /\
  exists u,
    transformDatabaseUser coerce_nan (Some blank_row) = Normal (Some u) /\
    aiResponseStyle (User.preferences u) = JStr "concise" /\
    budgetRange (User.preferences u) = JStr "high" /\
    healthGoals (User.profile u) = JArr [].
Proof.
  repeat (split; [reflexivity |]).
  destruct (falsy_values_defaulted coerce_nan blank_row)
    as (u & Hu & (_ & Hprofile) & (_ & Hpreferences) & _).
  destruct (Hprofile eq_refl) as ((Hgoals & _) & _).
  destruct (Hpreferences eq_refl) as ((_ & Hstyle) & (Hbudget & _) & _).
  exists u. split; [exact Hu |].
  split; [exact (Hstyle eq_refl) | split; [exact (Hbudget eq_refl) | exact (Hgoals eq_refl)]].
Defined.

Lemma gamification_user_witness :
  Supabase.auth_signInWithPassword (backend_up scored_row) "new@x.com" "pw123456"
    = Supabase.Resolves (signed_in email_principal) /\
  AppContent_setUserId
    (user (state (final (signInWithEmail coerce_nan (backend_up scored_row)
                           "new@x.com" "pw123456" signed_out_world))))
    = Some "u2".
Proof.
  split; [reflexivity |].
  destruct (gamification_user coerce_nan (backend_up scored_row) signed_out_world
              "new@x.com" "pw123456") as (_ & Hemail & _).
  rewrite (Hemail (signed_in email_principal) email_principal eq_refl eq_refl eq_refl).
  reflexivity.
Defined.
